(** * db.py: a key/value facade over Berkeley DB and SQLite

    A shallow embedding of [src/db.py] (classes [Data], [Index], [Table],
    [Berkeley], [BSDTable], [SQLite], [SQLTable]) and the properties of its
    specification.

    Conventions of the embedding.
    - A Python method that mutates [self] is a state transformer that may
      raise: [M S A := S -> result A * S].  The state that a raising call
      leaves behind is kept, as Python keeps the mutations made before the
      [raise].
    - Python text ([str]) is a [string] holding its UTF-8 bytes and [bytes]
      is a [list byte]; [str.encode()] and [bytes.decode()] convert between
      the two.  Text that has no UTF-8 encoding (lone surrogates) is not
      represented.
    - The two storage engines (the [bsddb3] module and the [sqlite3] module)
      are not part of the repository.  They are modelled by the small
      executable engines [BDB] and [SQL] below, which follow the documented
      behaviour of the calls that [db.py] makes.
    - [db.py] pastes the name of a table into a file name ([name + '.db'])
      and into the text of its SQL statements.  [BDB.open] opens a
      [BDB.file_name] as it is and leaves any other name to the file system
      ([BDB.locate]); [SQL.run] determines the statements on a table whose
      name is an [SQL.identifier] and answers [Unmodelled] where it
      determines nothing. *)

From Stdlib Require Import Strings.Byte.
From stdpp Require Import gmap strings list sorting pretty.

Local Open Scope string_scope.
Local Open Scope list_scope.

(** ** Python values, exceptions and the state-and-exception monad *)

Module Py.

(** The exception classes that the modelled code paths can raise. *)
Inductive exn : Set :=
| AttributeError
| TypeError
| KeyError
| IndexError
| ValueError
| StopIteration
| DBNotFoundError
| DBNoSuchFileError
| DBError
| OperationalError
| ProgrammingError.

Definition exn_name (e : exn) : string :=
  match e with
  | AttributeError => "AttributeError"
  | TypeError => "TypeError"
  | KeyError => "KeyError"
  | IndexError => "IndexError"
  | ValueError => "ValueError"
  | StopIteration => "StopIteration"
  | DBNotFoundError => "DBNotFoundError"
  | DBNoSuchFileError => "DBNoSuchFileError"
  | DBError => "DBError"
  | OperationalError => "OperationalError"
  | ProgrammingError => "ProgrammingError"
  end.

(** The Python values that travel through the facade: [None], text,
    bytes and integers. *)
Inductive value : Type :=
| VNone
| VStr (s : string)
| VBytes (b : list byte)
| VInt (n : nat).

(** Truth value of an object, as [if x:] and [not x] read it. *)
Definition truthy (v : value) : bool :=
  match v with
  | VNone => false
  | VStr s => negb (String.eqb s "")
  | VBytes b => match b with [] => false | _ => true end
  | VInt n => negb (Nat.eqb n 0)
  end.

(** The outcome of a call: a value, an exception, or [Unmodelled] for a
    call whose outcome the engines below do not determine.  The one source
    of [Unmodelled] is [SQL.run], for a statement whose table name is text
    that is not read here as SQLite reads it: text that is no
    [SQL.identifier] (a qualified or quoted name, a comment, more of the
    statement), or an identifier that differs from a stored name in the
    case of its letters only. *)
Inductive result (A : Type) : Type :=
| Ok (a : A)
| Raise (e : exn)
| Unmodelled.
Arguments Ok {A} a.
Arguments Raise {A} e.
Arguments Unmodelled {A}.

Definition M (S A : Type) : Type := S -> result A * S.

Definition ret {S A} (a : A) : M S A := fun s => (Ok a, s).
Definition raise {S A} (e : exn) : M S A := fun s => (Raise e, s).
Definition bind {S A B} (c : M S A) (k : A -> M S B) : M S B :=
  fun s =>
    match c s with
    | (Ok a, s') => k a s'
    | (Raise e, s') => (Raise e, s')
    | (Unmodelled, s') => (Unmodelled, s')
    end.
Definition gets {S A} (f : S -> A) : M S A := fun s => (Ok (f s), s).
Definition modify {S} (f : S -> S) : M S unit := fun s => (Ok tt, f s).

(** [with obj as x: body]: [__exit__] runs on every exit path of the
    body.  Every [__exit__] of [db.py] returns [None], so an exception of
    the body is re-raised after it; an exception raised by [__exit__]
    itself replaces the outcome of the body. *)
Definition with_ {S A} (body : M S A) (__exit__ : M S unit) : M S A :=
  fun s =>
    let '(r, s1) := body s in
    match __exit__ s1 with
    | (Ok _, s2) => (r, s2)
    | (Raise e, s2) => (Raise e, s2)
    | (Unmodelled, s2) => (Unmodelled, s2)
    end.

(** [for x in it: acc.append(x)]: call [__next__] until it raises
    [StopIteration].  [fuel] bounds the number of calls; [None] means
    that the bound was reached before the iterator stopped. *)
Fixpoint drain {S A} (fuel : nat) (next : M S A) (s : S)
    : option (result (list A) * S) :=
  match fuel with
  | O => None
  | S fuel' =>
      match next s with
      | (Ok x, s') =>
          match drain fuel' next s' with
          | Some (Ok xs, s'') => Some (Ok (x :: xs), s'')
          | other => other
          end
      | (Raise StopIteration, s') => Some (Ok [], s')
      | (Raise e, s') => Some (Raise e, s')
      | (Unmodelled, s') => Some (Unmodelled, s')
      end
  end.

End Py.

Import Py.

Notation "x <- c1 ;; c2" := (Py.bind c1 (fun x => c2))
  (at level 100, c1 at next level, right associativity,
   format "'[v' x  <-  c1  ;;  '/' c2 ']'").
Notation "c1 ;;; c2" := (Py.bind c1 (fun _ => c2))
  (at level 100, right associativity).

(** ** Text and bytes *)

Abbreviation bytes := (list byte).

(** [s.encode()] and [b.decode()] (UTF-8). *)
Definition encode (s : string) : bytes := String.list_byte_of_string s.
Definition decode (b : bytes) : string := String.string_of_list_byte b.

Definition byte_in (c : byte) (b : bytes) : bool := existsb (Byte.eqb c) b.

Definition hexdigits : bytes := encode "0123456789abcdef".
Definition hex_digit (n : N) : byte := nth (N.to_nat n) hexdigits x30.

(** One byte of [repr(b)] for a bytes object, with the quote in use. *)
Definition repr_byte (quote c : byte) : bytes :=
  if Byte.eqb c quote || Byte.eqb c x5c then [x5c; c]
  else if Byte.eqb c x09 then [x5c; x74]
  else if Byte.eqb c x0a then [x5c; x6e]
  else if Byte.eqb c x0d then [x5c; x72]
  else if ((Byte.to_N c <? 32) || (127 <=? Byte.to_N c))%N
       then [x5c; x78; hex_digit (Byte.to_N c / 16); hex_digit (Byte.to_N c mod 16)]
  else [c].

(** [repr(b)]: the letter b and the escaped bytes between single quotes, or
    between double quotes when the bytes hold a single quote and no double
    quote. *)
Definition bytes_repr (b : bytes) : bytes :=
  let quote := if byte_in x27 b && negb (byte_in x22 b) then x22 else x27 in
  x62 :: quote :: flat_map (repr_byte quote) b ++ [quote].

(** [str(b)] for a bytes object is its [repr]. *)
Definition str_of_bytes (b : bytes) : string := decode (bytes_repr b).

(** [str(x)]. *)
Definition str (x : value) : string :=
  match x with
  | VNone => "None"
  | VStr s => s
  | VBytes b => str_of_bytes b
  | VInt n => pretty n
  end.

(** [x.encode()]: only text has the method. *)
Definition value_encode {S} (x : value) : M S bytes :=
  match x with
  | VStr s => ret (encode s)
  | _ => raise AttributeError
  end.

(** [x.decode()], for what [DB.get] returned: only bytes have the method. *)
Definition value_decode {S} (x : option bytes) : M S string :=
  match x with
  | Some b => ret (decode b)
  | None => raise AttributeError
  end.

(** Byte strings are ordered lexicographically, as the B-tree orders keys. *)
Fixpoint bytes_compare (a b : bytes) : comparison :=
  match a, b with
  | [], [] => Eq
  | [], _ :: _ => Lt
  | _ :: _, [] => Gt
  | x :: a', y :: b' =>
      match N.compare (Byte.to_N x) (Byte.to_N y) with
      | Eq => bytes_compare a' b'
      | c => c
      end
  end.

Definition bytes_eqb (a b : bytes) : bool :=
  match bytes_compare a b with Eq => true | _ => false end.
Definition bytes_ltb (a b : bytes) : bool :=
  match bytes_compare a b with Lt => true | _ => false end.

(** ** The ordered engine: Berkeley DB through [bsddb3]

    An environment holds one B-tree per file: a list of (key, data) pairs
    kept in increasing key order, one pair per key.  A [DB] handle names its
    file; a cursor remembers the key it stands on. *)

Module BDB.

Abbreviation btree := (list (bytes * bytes)).

(** The file names that a file system takes as they are, each for a file
    of its own in the home of the environment: a lower-case letter followed
    by lower-case letters, digits, underscores and dots, up to 255 bytes
    in all. *)
Definition letter (a : Ascii.ascii) : bool :=
  let n := Ascii.N_of_ascii a in
  ((97 <=? n) && (n <=? 122))%N.

Definition plain_byte (a : Ascii.ascii) : bool :=
  let n := Ascii.N_of_ascii a in
  (letter a || (48 <=? n) && (n <=? 57) || (n =? 95) || (n =? 46))%N.

Definition file_name (file : string) : bool :=
  match file with
  | EmptyString => false
  | String a rest => letter a && forallb plain_byte (String.list_ascii_of_string rest)
  end &&
  Nat.leb (String.length file) 255.

Fixpoint lookup (k : bytes) (t : btree) : option bytes :=
  match t with
  | [] => None
  | (k', v') :: r => if bytes_eqb k k' then Some v' else lookup k r
  end.

(** Insert at the key's place in the order, or overwrite the data of an
    equal key. *)
Fixpoint insert (k v : bytes) (t : btree) : btree :=
  match t with
  | [] => [(k, v)]
  | (k', v') :: r =>
      match bytes_compare k k' with
      | Lt => (k, v) :: t
      | Eq => (k, v) :: r
      | Gt => (k', v') :: insert k v r
      end
  end.

Fixpoint remove (k : bytes) (t : btree) : btree :=
  match t with
  | [] => []
  | (k', v') :: r => if bytes_eqb k k' then r else (k', v') :: remove k r
  end.

Fixpoint sorted (t : btree) : bool :=
  match t with
  | [] => true
  | (k, _) :: r =>
      match r with
      | [] => true
      | (k', _) :: _ => bytes_ltb k k' && sorted r
      end
  end.

(** The pair a cursor moves to: the first pair of the tree for a cursor
    that stands nowhere yet, the first pair with a greater key otherwise. *)
Definition successor (pos : option bytes) (t : btree) : option (bytes * bytes) :=
  match pos with
  | None => head t
  | Some k => find (fun kv => bytes_ltb k (fst kv)) t
  end.

(** [DBEnv]: the files of the environment, whether it was closed, the
    verdict of the engine's own integrity check on a file (opaque), and what
    the file system makes of a name that is not a [file_name] (opaque as
    well): the error that [open] raises for it (a directory that is
    missing, a NUL byte, a name that is too long), or the file that the
    name leads to, which may be the file of another name. *)
Record Env : Type := mkEnv {
  files : gmap string btree;
  env_closed : bool;
  check : string -> result unit;
  locate : string -> exn + string
}.

Definition file_of (e : Env) (file : string) : exn + string :=
  if file_name file then inr file else locate e file.

(** [DB]: a handle on one file of the environment. *)
Record DB : Type := mkDB {
  db_file : string;
  db_closed : bool
}.

Record DBCursor : Type := mkCursor {
  position : option bytes
}.

Definition tree_of (h : DB) (e : Env) : btree := default [] (files e !! db_file h).

Definition set_tree (h : DB) (t : btree) (e : Env) : Env :=
  {| files := <[db_file h := t]> (files e);
     env_closed := env_closed e;
     check := check e;
     locate := locate e |}.

(** [h = db.DB(env); h.open(file, db.DB_BTREE, db.DB_CREATE)]: the file
    that the name leads to is created empty when it does not exist; a name
    that leads to no file raises. *)
Definition open (file : string) : M Env DB :=
  fun e =>
    if env_closed e then (Raise DBError, e)
    else
      match file_of e file with
      | inl x => (Raise x, e)
      | inr f =>
          (Ok {| db_file := f; db_closed := false |},
           {| files := match files e !! f with
                       | Some _ => files e
                       | None => <[f := []]> (files e)
                       end;
              env_closed := env_closed e;
              check := check e;
              locate := locate e |})
      end.

(** [h.put(k, v)]. *)
Definition put (h : DB) (k v : bytes) : M Env unit :=
  fun e =>
    if db_closed h then (Raise DBError, e)
    else (Ok tt, set_tree h (insert k v (tree_of h e)) e).

(** [h.get(k)]: the data, or [None] when the key is not in the tree. *)
Definition get (h : DB) (k : bytes) : M Env (option bytes) :=
  fun e =>
    if db_closed h then (Raise DBError, e)
    else (Ok (lookup k (tree_of h e)), e).

(** [h.delete(k)]: raises [DBNotFoundError] when the key is not in the
    tree. *)
Definition delete (h : DB) (k : bytes) : M Env unit :=
  fun e =>
    if db_closed h then (Raise DBError, e)
    else
      match lookup k (tree_of h e) with
      | None => (Raise DBNotFoundError, e)
      | Some _ => (Ok tt, set_tree h (remove k (tree_of h e)) e)
      end.

(** [h.verify(file)]: the engine's check; the handle cannot be used
    afterwards, whatever the verdict. *)
Definition verify (h : DB) (file : string) : M Env DB :=
  fun e =>
    if db_closed h then (Raise DBError, e)
    else
      match check e file with
      | Ok _ => (Ok {| db_file := db_file h; db_closed := true |}, e)
      | Raise x => (Raise x, e)
      | Unmodelled => (Unmodelled, e)
      end.

(** [h.cursor()]: a cursor that stands nowhere yet. *)
Definition cursor (h : DB) : M Env DBCursor :=
  fun e =>
    if db_closed h then (Raise DBError, e)
    else (Ok {| position := None |}, e).

(** [c.next()]: move to the following pair and return it, or return
    [None] (and stay) when there is none. *)
Definition next (h : DB) (c : DBCursor) : M Env (option (bytes * bytes) * DBCursor) :=
  fun e =>
    if db_closed h then (Raise DBError, e)
    else
      match successor (position c) (tree_of h e) with
      | Some (k, v) => (Ok (Some (k, v), {| position := Some k |}), e)
      | None => (Ok (None, c), e)
      end.

(** [h.close()]. *)
Definition close (h : DB) : DB := {| db_file := db_file h; db_closed := true |}.

(** [env.close()]. *)
Definition env_close : M Env unit :=
  fun e =>
    if env_closed e then (Raise DBError, e)
    else (Ok tt, {| files := files e; env_closed := true; check := check e;
                     locate := locate e |}).

End BDB.

(** ** The relational engine: SQLite through [sqlite3]

    A connection holds the relations created by [db.py], each under the
    name that [sqlite_master] stores for it and each a list of (key, value)
    rows in insertion order, the state last committed, and the rows that
    its one cursor has still to fetch. *)

Module SQL.

Abbreviation row := (list value).

Abbreviation relation := (list (string * string)).

Record Connection : Type := mkConnection {
  relations : gmap string relation;
  committed : gmap string relation;
  result_set : list row;
  closed : bool
}.

(** The statements that [db.py] sends, by their text. *)
Inductive statement : Type :=
| SELECT_FROM_sqlite_master (name : string)
    (* SELECT * FROM sqlite_master WHERE type='table' AND name=? *)
| CREATE_TABLE (name : string)
    (* CREATE TABLE name (key text, value text) *)
| SELECT_COUNT (name : string)
    (* SELECT COUNT( * ) FROM name; *)
| SELECT_key_value (name : string)
    (* SELECT key,value FROM name; *)
| SELECT_value_WHERE (name key : string)
    (* SELECT value FROM name WHERE key=?; *)
| INSERT_INTO (name key val : string)
    (* INSERT INTO name VALUES (?,?); *)
| UPDATE_SET (name key val where_key : string)
    (* UPDATE name SET key=?, value=? WHERE key=?; *)
| DELETE_FROM (name key : string)
    (* DELETE FROM name WHERE key=?; *)
| ALTER_TABLE_ADD_COLUMN_param (name column : string)
    (* ALTER TABLE name ADD COLUMN ?; *)
| UPDATE_SET_param (name column val key : string).
    (* UPDATE name SET ?=? WHERE key=?; *)

Definition set_result (rs : list row) (c : Connection) : Connection :=
  {| relations := relations c; committed := committed c;
     result_set := rs; closed := closed c |}.

Definition set_relation (name : string) (r : relation) (c : Connection) : Connection :=
  {| relations := <[name := r]> (relations c); committed := committed c;
     result_set := []; closed := closed c |}.

Definition key_is (key : string) (kv : string * string) : bool :=
  String.eqb (fst kv) key.

(** SQLite reads the names of tables and its keywords without regard to
    the case of the letters A to Z. *)
Definition lower (a : Ascii.ascii) : Ascii.ascii :=
  let n := Ascii.N_of_ascii a in
  if ((65 <=? n) && (n <=? 90))%N then Ascii.ascii_of_N (n + 32) else a.

Fixpoint fold_case (name : string) : string :=
  match name with
  | EmptyString => EmptyString
  | String a rest => String (lower a) (fold_case rest)
  end.

(** [db.py] pastes the name of a table into the text of its statements
    ([format]), where SQLite reads it as SQL.  Text that is an
    [identifier] is read as one name, the name of the table: a letter or
    an underscore followed by letters, digits and underscores, at most 255
    bytes, no keyword of SQLite (nor [true] or [false]), and not one of
    the names that begin with [sqlite_], which are reserved. *)
Definition keywords : list string :=
  ["abort"; "action"; "add"; "after"; "all"; "alter"; "always"; "analyze"; "and";
   "as"; "asc"; "attach"; "autoincrement"; "before"; "begin"; "between"; "by";
   "cascade"; "case"; "cast"; "check"; "collate"; "column"; "commit"; "conflict";
   "constraint"; "create"; "cross"; "current"; "current_date"; "current_time";
   "current_timestamp"; "database"; "default"; "deferrable"; "deferred"; "delete";
   "desc"; "detach"; "distinct"; "do"; "drop"; "each"; "else"; "end"; "escape";
   "except"; "exclude"; "exclusive"; "exists"; "explain"; "fail"; "false"; "filter";
   "first"; "following"; "for"; "foreign"; "from"; "full"; "generated"; "glob";
   "group"; "groups"; "having"; "if"; "ignore"; "immediate"; "in"; "index";
   "indexed"; "initially"; "inner"; "insert"; "instead"; "intersect"; "into"; "is";
   "isnull"; "join"; "key"; "last"; "left"; "like"; "limit"; "match";
   "materialized"; "natural"; "no"; "not"; "nothing"; "notnull"; "null"; "nulls";
   "of"; "offset"; "on"; "or"; "order"; "others"; "outer"; "over"; "partition";
   "plan"; "pragma"; "preceding"; "primary"; "query"; "raise"; "range"; "recursive";
   "references"; "regexp"; "reindex"; "release"; "rename"; "replace"; "restrict";
   "returning"; "right"; "rollback"; "row"; "rows"; "savepoint"; "select"; "set";
   "table"; "temp"; "temporary"; "then"; "ties"; "to"; "transaction"; "trigger";
   "true"; "unbounded"; "union"; "unique"; "update"; "using"; "vacuum"; "values";
   "view"; "virtual"; "when"; "where"; "window"; "with"; "within"; "without"].

Definition word_start (a : Ascii.ascii) : bool :=
  let n := Ascii.N_of_ascii (lower a) in
  ((97 <=? n) && (n <=? 122) || (n =? 95))%N.

Definition word_byte (a : Ascii.ascii) : bool :=
  let n := Ascii.N_of_ascii (lower a) in
  ((97 <=? n) && (n <=? 122) || (48 <=? n) && (n <=? 57) || (n =? 95))%N.

Definition identifier (name : string) : bool :=
  match name with
  | EmptyString => false
  | String a rest => word_start a && forallb word_byte (String.list_ascii_of_string rest)
  end &&
  negb (existsb (String.eqb (fold_case name)) keywords) &&
  negb (String.prefix "sqlite_" (fold_case name)) &&
  Nat.leb (String.length name) 255.

(** Two identifiers with a space between them are read as two names; a
    CREATE TABLE takes one. *)
Fixpoint split_space (name : string) : option (string * string) :=
  match name with
  | EmptyString => None
  | String a rest =>
      if Ascii.eqb a (Ascii.ascii_of_N 32) then Some (EmptyString, rest)
      else
        match split_space rest with
        | Some (w1, w2) => Some (String a w1, w2)
        | None => None
        end
  end.

Definition two_words (name : string) : bool :=
  match split_space name with
  | Some (w1, w2) => identifier w1 && identifier w2
  | None => false
  end.

(** [clash] tells whether another stored name is the same name to
    SQLite. *)
Definition clash (name : string) (c : Connection) : bool :=
  existsb (fun stored =>
             negb (String.eqb stored name) &&
             String.eqb (fold_case stored) (fold_case name))
    (map fst (map_to_list (relations c))).

(** A statement on a relation stored under the name works on it.  Where
    no relation is stored under the name, an [identifier] that no stored
    name clashes with names no table, and the statement fails with
    [OperationalError]; an identifier that a stored name clashes with
    names that table, and other text may name a table as well: for these
    the outcome is not determined here.  [CREATE TABLE] creates the
    relation for an [identifier] that is not taken, fails with
    [OperationalError] for one that is taken and for [two_words], and is
    not determined for other text.  A statement that is not SQL (a
    parameter marker where a column name must stand) fails with
    [OperationalError].  A statement leaves the cursor with a new result
    set. *)
Definition run (st : statement) (c : Connection) : result unit * Connection :=
  let on name (k : relation -> Connection) :=
    match relations c !! name with
    | Some r => (Ok tt, k r)
    | None =>
        if identifier name && negb (clash name c)
        then (Raise OperationalError, set_result [] c)
        else (Unmodelled, c)
    end in
  match st with
  | SELECT_FROM_sqlite_master name =>
      (Ok tt,
       set_result
         match relations c !! name with
         | Some _ => [[VStr "table"; VStr name; VStr name]]
         | None => []
         end c)
  | CREATE_TABLE name =>
      if identifier name then
        match relations c !! name with
        | Some _ => (Raise OperationalError, set_result [] c)
        | None =>
            if clash name c then (Raise OperationalError, set_result [] c)
            else (Ok tt, set_relation name [] c)
        end
      else if two_words name then (Raise OperationalError, set_result [] c)
      else (Unmodelled, c)
  | SELECT_COUNT name =>
      on name (fun r => set_result [[VInt (length r)]] c)
  | SELECT_key_value name =>
      on name (fun r => set_result (map (fun kv => [VStr (fst kv); VStr (snd kv)]) r) c)
  | SELECT_value_WHERE name key =>
      on name (fun r =>
        set_result (map (fun kv => [VStr (snd kv)]) (List.filter (key_is key) r)) c)
  | INSERT_INTO name key val =>
      on name (fun r => set_relation name (r ++ [(key, val)]) c)
  | UPDATE_SET name key val where_key =>
      on name (fun r =>
        set_relation name
          (map (fun kv => if key_is where_key kv then (key, val) else kv) r) c)
  | DELETE_FROM name key =>
      on name (fun r =>
        set_relation name (List.filter (fun kv => negb (key_is key kv)) r) c)
  | ALTER_TABLE_ADD_COLUMN_param _ _ => (Raise OperationalError, set_result [] c)
  | UPDATE_SET_param _ _ _ _ => (Raise OperationalError, set_result [] c)
  end.

(** [cur.execute(stmt, params)]. *)
Definition execute (st : statement) : M Connection unit :=
  fun c => if closed c then (Raise ProgrammingError, c) else run st c.

(** [cur.fetchone()]: the next row of the result set, or [None]. *)
Definition fetchone : M Connection (option row) :=
  fun c =>
    if closed c then (Raise ProgrammingError, c)
    else
      match result_set c with
      | [] => (Ok None, c)
      | r :: rs => (Ok (Some r), set_result rs c)
      end.

(** [db.commit()]. *)
Definition commit : M Connection unit :=
  fun c =>
    if closed c then (Raise ProgrammingError, c)
    else
      (Ok tt,
       {| relations := relations c; committed := relations c;
          result_set := result_set c; closed := closed c |}).

(** [db.close()]: what was not committed is lost. *)
Definition close : M Connection unit :=
  fun c =>
    (Ok tt,
     {| relations := committed c; committed := committed c;
        result_set := []; closed := true |}).

End SQL.

(** ** The classes of [db.py] *)

(** [class Index]: an instance is created bare by [Index()]; [add_index]
    attaches [db] and [cursor], [Data.table] attaches [cursor_value].  An
    attribute that was not attached yet is [None] here.  The iteration of
    an index ([Index.__next__], [Index.__len__]) reads a secondary database
    that only [associate] fills, and is not modelled. *)
Record Index : Type := mkIndex {
  index_db : option BDB.DB;
  index_cursor : option (option BDB.DBCursor);
  cursor_value : option value
}.

Definition Index_new : Index :=
  {| index_db := None; index_cursor := None; cursor_value := None |}.

(** [class Table]: [__init__] sets [name], [cursor = False] and
    [indexes = {}]; the subclasses add [db] (and, for [SQLTable], [cur]).
    [Cur] is the type of an open cursor and [Db] the type of the engine
    object behind [self.db]. *)
Record Table (Cur Db : Type) : Type := mkTable {
  name : string;
  cursor : option Cur;
  indexes : gmap string Index;
  db : Db
}.
Arguments mkTable {Cur Db} _ _ _ _.
Arguments name {Cur Db} _.
Arguments cursor {Cur Db} _.
Arguments indexes {Cur Db} _.
Arguments db {Cur Db} _.

Definition Table_init {Cur Db} (name : string) (db : Db) : Table Cur Db :=
  mkTable name None ∅ db.

Definition set_cursor {Cur Db} (c : option Cur) (t : Table Cur Db) : Table Cur Db :=
  mkTable (name t) c (indexes t) (db t).

Definition set_db {Cur Db} (d : Db) (t : Table Cur Db) : Table Cur Db :=
  mkTable (name t) (cursor t) (indexes t) d.

(** What [getattr(table, k)] can find on a table object, by the kind of
    object found. *)
Inductive attr : Type :=
| AStr (s : string)
| ABool (b : bool)
| ADict
| AMethod
| AEngine
| AClass
| AIndex (i : Index).

(** What [Data.table] returns. *)
Inductive handle (T : Type) : Type :=
| HTable (t : T)
| HIndex (i : Index)
| HClass.
Arguments HTable {T} t.
Arguments HIndex {T} i.
Arguments HClass {T}.

(** A method of a table runs on the table object and on the engine state
    that the object refers to. *)
Definition self {T E} : M (T * E) T := gets fst.
Definition set_self {T E} (f : T -> T) : M (T * E) unit :=
  modify (fun s => (f (fst s), snd s)).
Definition engine {T E A} (m : M E A) : M (T * E) A :=
  fun s => let '(r, e') := m (snd s) in (r, (fst s, e')).

(** *** [class Data] *)

(** The facade: the registry [self.tables] and the attributes that the
    subclass adds.  [self.path] is written by [__init__] and never read. *)
Record Data (T B : Type) : Type := mkData {
  tables : gmap string T;
  backend : B
}.
Arguments mkData {T B} _ _.
Arguments tables {T B} _.
Arguments backend {T B} _.

(** What a subclass of [Data] and its table class supply. *)
Class Backend (T B : Type) : Type := {
  backend_open : string -> M (Data T B) unit;
  table_put : value -> value -> M (T * B) unit;
  table_get : value -> M (T * B) value;
  table_delete : value -> M (T * B) unit;
  table_verify : string -> M (T * B) unit;
  table_getattr : T -> string -> option attr
}.

Section Data.
Context {T B : Type} `{!Backend T B}.

(** [self.tables[name].method(...)]: the lookup raises [KeyError] for a
    name that is not in the registry; the method works on the registered
    object itself. *)
Definition on_table {A} (name : string) (method : M (T * B) A) : M (Data T B) A :=
  fun d =>
    match tables d !! name with
    | None => (Raise KeyError, d)
    | Some t =>
        let '(r, (t', b')) := method (t, backend d) in
        (r, mkData (<[name := t']> (tables d)) b')
    end.

Definition Data_open (name : string) (db_obj : T) : M (Data T B) unit :=
  modify (fun d => mkData (<[name := db_obj]> (tables d)) (backend d)).

Definition assert_exist (table : string) : M (Data T B) unit :=
  fun d =>
    if decide (table ∈ dom (tables d)) then (Ok tt, d)
    else backend_open table d.

Definition Data_put (name : string) (key data : value) : M (Data T B) unit :=
  assert_exist name ;;;
  on_table name (table_put key data).

Definition Data_get (name : string) (key : value) : M (Data T B) value :=
  assert_exist name ;;;
  value <- on_table name (table_get key) ;;
  ret value.

Definition Data_delete (name : string) (key : value) : M (Data T B) unit :=
  assert_exist name ;;;
  let key := VBytes (encode (str key)) in
  on_table name (table_delete key).

Definition Data_verify (name : string) : M (Data T B) unit :=
  on_table name (table_verify (name +:+ ".db")).

(** [setattr(index_obj, 'cursor_value', v)]: of the objects that a table
    attribute can be, an [Index] instance and a class take new
    attributes; text, booleans, dictionaries, bound methods and engine
    objects do not. *)
Definition setattr_cursor_value (index_obj : attr) (v : value) : M (Data T B) (handle T) :=
  match index_obj with
  | AIndex i =>
      ret (HIndex {| index_db := index_db i; index_cursor := index_cursor i;
                     cursor_value := Some v |})
  | AClass => ret HClass
  | AStr _ | ABool _ | ADict | AMethod | AEngine => raise AttributeError
  end.

(** [table(name, **key)]: [key] lists the keyword arguments in the order
    given.  A keyword that is the name of a parameter of the method
    ([self], [name]) is refused by Python before the body runs, with
    [TypeError] (the parameter got two values).  In the body [popitem]
    takes the last keyword, and the [return] inside the loop ends the call
    on the first round. *)
Definition table_parameters : list string := ["self"; "name"].

Definition Data_table (name : string) (key : list (string * value)) : M (Data T B) (handle T) :=
  if existsb (fun kv => bool_decide (fst kv ∈ table_parameters)) key then raise TypeError
  else
    assert_exist name ;;;
    match rev key with
    | [] => on_table name (t <- self ;; ret (HTable t))
    | (k, v) :: _ =>
        table <- on_table name self ;;
        match table_getattr table k with
        | None => raise AttributeError
        | Some index_obj => setattr_cursor_value index_obj v
        end
    end.

Definition Data_exit : M (Data T B) unit := ret tt.

End Data.

(** [len(obj)]: the class must define [__len__], and it must return an
    integer. *)
Definition len {S} (__len__ : option (M S value)) : M S nat :=
  match __len__ with
  | None => raise TypeError
  | Some method =>
      n <- method ;;
      match n with
      | VInt n => ret n
      | _ => raise TypeError
      end
  end.

(** *** [class Table] and [class BSDTable(Table)] *)

Abbreviation BSDTable := (Table BDB.DBCursor BDB.DB).

Definition BSDTable_init (name : string) (db_obj : BDB.DB) : BSDTable :=
  Table_init name db_obj.

(** [Table.__next__], which [BSDTable] inherits. *)
Definition Table_next : M (BSDTable * BDB.Env) (string * string) :=
  t <- self ;;
  c <- match cursor t with
       | Some c => ret c
       | None =>
           c <- engine (BDB.cursor (db t)) ;;
           set_self (set_cursor (Some c)) ;;;
           ret c
       end ;;
  item <- engine (BDB.next (db t) c) ;;
  match item with
  | (None, _) =>
      set_self (set_cursor None) ;;;
      raise StopIteration
  | (Some (key, value), c') =>
      set_self (set_cursor (Some c')) ;;;
      ret (decode key, decode value)
  end.

(** [Table.delete]: [self.db.delete(key)]; the engine takes bytes only. *)
Definition Table_delete (key : value) : M (BSDTable * BDB.Env) unit :=
  t <- self ;;
  match key with
  | VBytes k => engine (BDB.delete (db t) k)
  | _ => raise TypeError
  end.

(** [Table.verify]: [self.db.verify(name)]. *)
Definition Table_verify (name : string) : M (BSDTable * BDB.Env) unit :=
  t <- self ;;
  h <- engine (BDB.verify (db t) name) ;;
  set_self (set_db h).

Definition BSDTable_put (key data : value) : M (BSDTable * BDB.Env) unit :=
  k <- value_encode key ;;
  v <- value_encode data ;;
  t <- self ;;
  engine (BDB.put (db t) k v).

Definition BSDTable_get (key : value) : M (BSDTable * BDB.Env) value :=
  k <- value_encode key ;;
  t <- self ;;
  data <- engine (BDB.get (db t) k) ;;
  s <- value_decode data ;;
  ret (VStr s).

Definition BSDTable_close : M (BSDTable * BDB.Env) unit :=
  set_self (fun t => set_db (BDB.close (db t)) t).

(** Neither [Table] nor [BSDTable] defines [__len__]. *)
Definition BSDTable_len : option (M (BSDTable * BDB.Env) value) := None.

(** The attributes of a [BSDTable] object: those that [__init__] sets,
    the methods of the two classes, and its class.  The other names that
    every Python object has ([__dict__], [__doc__], the methods of
    [object]) are found by Python and refuse the new attribute in
    [setattr]; here they are not found.  Either way [Data.table] raises
    [AttributeError]. *)
Definition BSDTable_getattr (t : BSDTable) (k : string) : option attr :=
  if decide (k = "name") then Some (AStr (name t))
  else if decide (k = "cursor") then
         Some (match cursor t with None => ABool false | Some _ => AEngine end)
  else if decide (k = "indexes") then Some ADict
  else if decide (k = "db") then Some AEngine
  else if decide (k ∈ ["__init__"; "__iter__"; "__next__"; "put"; "get";
                       "delete"; "verify"; "close"]) then Some AMethod
  else if decide (k = "__class__") then Some AClass
  else None.

(** *** [class Berkeley(Data)] *)

(** The attributes that [Berkeley] adds to the facade: [self.env], and the
    [Index] instances that [add_index] attaches under the index names. *)
Record Berkeley_attrs : Type := mkBerkeley {
  env : BDB.Env;
  attrs : gmap string Index
}.

Abbreviation Berkeley := (Data BSDTable Berkeley_attrs).

Definition in_env {T A} (m : M (T * BDB.Env) A) : M (T * Berkeley_attrs) A :=
  fun s =>
    let '(r, (t', e')) := m (fst s, env (snd s)) in
    (r, (t', mkBerkeley e' (attrs (snd s)))).

Definition Berkeley_env {A} (m : M BDB.Env A) : M Berkeley A :=
  fun d =>
    let '(r, e') := m (env (backend d)) in
    (r, mkData (tables d) (mkBerkeley e' (attrs (backend d)))).

(** [Berkeley(path)]: an empty registry over the environment found at
    [path]. *)
Definition Berkeley_init (e : BDB.Env) : Berkeley :=
  mkData ∅ (mkBerkeley e ∅).

Definition Berkeley_open (name : string) : M Berkeley unit :=
  db_obj <- Berkeley_env (BDB.open (name +:+ ".db")) ;;
  let new_table := BSDTable_init name db_obj in
  Data_open name new_table.

#[export] Instance Berkeley_backend : Backend BSDTable Berkeley_attrs := {
  backend_open := Berkeley_open;
  table_put key data := in_env (BSDTable_put key data);
  table_get key := in_env (BSDTable_get key);
  table_delete key := in_env (Table_delete key);
  table_verify name := in_env (Table_verify name);
  table_getattr := BSDTable_getattr
}.

(** The names that the methods of the facade read on [self].  [setattr]
    with one of them, or with a name of Python's own (two leading
    underscores), would rebind what the facade itself uses; the model does
    not follow that, and [Berkeley_add_index] is [None] there. *)
Definition facade_names : list string :=
  ["path"; "tables"; "env"; "indexes"; "db"; "put"; "get"; "delete"; "verify";
   "table"; "open"; "assert_exist"; "add_index"; "close"].

Definition rebinds_facade (index : string) : bool :=
  bool_decide (index ∈ facade_names) || String.prefix "__" index.

(** [self.indexes] and [self.db]: no statement of [Data] or [Berkeley]
    assigns these attributes of the facade, so reading them raises
    [AttributeError]. *)
Definition Berkeley_indexes : M Berkeley (list Index) := raise AttributeError.
Definition Berkeley_db : M Berkeley BDB.DB := raise AttributeError.

Definition setattr_index (index : string) (f : Index -> Index) : M Berkeley unit :=
  modify (fun d =>
    mkData (tables d)
      (mkBerkeley (env (backend d))
         (<[index := f (default Index_new (attrs (backend d) !! index))]>
            (attrs (backend d))))).

(** [add_index(index, index_callback, table)].  [raise] with a string is a
    [TypeError] ("exceptions must derive from BaseException").  The call of
    [associate] and the [append] that follow the reading of [self.db] are
    not reached. *)
Definition Berkeley_add_index (index : string) (index_callback : bytes -> bytes -> bytes)
    (table : string) (d : Berkeley) : option (result unit * Berkeley) :=
  if decide (index ∈ dom (tables d)) then Some (Raise TypeError, d)
  else if rebinds_facade index then None
  else Some (
    (setattr_index index (fun _ => Index_new) ;;;
     h <- Berkeley_env (BDB.open (table +:+ "_idx_" +:+ index +:+ ".db")) ;;
     setattr_index index (fun i => mkIndex (Some h) (index_cursor i) (cursor_value i)) ;;;
     setattr_index index (fun i => mkIndex (index_db i) (Some None) (cursor_value i)) ;;;
     _ <- Berkeley_db ;;
     ret tt) d).

(** [for x in xs: body(x)]. *)
Fixpoint for_each {S A} (xs : list A) (body : A -> M S unit) : M S unit :=
  match xs with
  | [] => ret tt
  | x :: xs' => body x ;;; for_each xs' body
  end.

(** [Berkeley.close].  Closing a cursor or a handle of an index touches
    nothing that the facade reads later; closing a table leaves its
    [cursor] attribute as it is and closes its handle. *)
Definition Berkeley_close : M Berkeley unit :=
  indexes <- Berkeley_indexes ;;
  for_each indexes (fun index =>
    match index_cursor index, index_db index with
    | Some _, Some _ => ret tt
    | _, _ => raise AttributeError
    end) ;;;
  modify (fun d =>
    mkData ((fun table => set_db (BDB.close (db table)) table) <$> tables d)
           (backend d)) ;;;
  Berkeley_env BDB.env_close.

Definition Berkeley_exit : M Berkeley unit := Berkeley_close.

(** *** [class SQLTable(Table)] *)

(** [self.cur] and [self.db] are the cursor and the connection of the
    facade, shared by all its tables; the state of both is the
    [SQL.Connection] that the methods run on.  [self.cursor], when it is
    not [False], is that same cursor ([execute] returns it). *)
Abbreviation SQLTable := (Table unit unit).

Definition SQLTable_init (name : string) : SQLTable := Table_init name tt.

Definition SQLTable_len : option (M (SQLTable * SQL.Connection) value) :=
  Some (
    t <- self ;;
    engine (SQL.execute (SQL.SELECT_COUNT (name t))) ;;;
    r <- engine SQL.fetchone ;;
    match r with
    | None => raise TypeError
    | Some [] => raise IndexError
    | Some (n :: _) => ret n
    end).


Definition SQLTable_get (key : value) : M (SQLTable * SQL.Connection) value :=
  let key := str key in
  t <- self ;;
  engine (SQL.execute (SQL.SELECT_value_WHERE (name t) key)) ;;;
  a <- engine SQL.fetchone ;;
  match a with
  | Some (v :: _) => ret v
  | _ => ret VNone
  end.

Definition SQLTable_sql_statement (mode : string) (key value : string)
    (indexes : list (string * string)) : M (SQLTable * SQL.Connection) unit :=
  t <- self ;;
  (if decide (mode = "INSERT") then
     engine (SQL.execute (SQL.INSERT_INTO (name t) key value))
   else if decide (mode = "UPDATE") then
     engine (SQL.execute (SQL.UPDATE_SET (name t) key value key))
   else ret tt) ;;;
  for_each indexes (fun index =>
    engine (SQL.execute (SQL.UPDATE_SET_param (name t) (fst index) (snd index) key))) ;;;
  engine SQL.commit.

Definition SQLTable_put (key data : value) (indexes : list (string * string))
    : M (SQLTable * SQL.Connection) unit :=
  let key := str key in
  let data := str data in
  v <- SQLTable_get (VStr key) ;;
  if negb (truthy v) then SQLTable_sql_statement "INSERT" key data indexes
  else SQLTable_sql_statement "UPDATE" key data indexes.

Definition SQLTable_delete (key : value) : M (SQLTable * SQL.Connection) unit :=
  let key := str key in
  t <- self ;;
  engine (SQL.execute (SQL.DELETE_FROM (name t) key)).

(** [add_index(index)]: [raise] with a string is a [TypeError]; a
    dictionary has no [append]. *)
Definition SQLTable_add_index (index : string) : M (SQLTable * SQL.Connection) unit :=
  t <- self ;;
  if decide (index ∈ dom (indexes t)) then raise TypeError
  else
    engine (SQL.execute (SQL.ALTER_TABLE_ADD_COLUMN_param (name t) index)) ;;;
    engine SQL.commit ;;;
    raise AttributeError.

(** [Table.verify] on an [SQLTable]: [self.db] is the connection, which
    has no method [verify]. *)
Definition SQLTable_verify (name : string) : M (SQLTable * SQL.Connection) unit :=
  raise AttributeError.

Definition SQLTable_getattr (t : SQLTable) (k : string) : option attr :=
  if decide (k = "name") then Some (AStr (name t))
  else if decide (k = "cursor") then
         Some (match cursor t with None => ABool false | Some _ => AEngine end)
  else if decide (k = "indexes") then Some ADict
  else if decide (k ∈ ["cur"; "db"]) then Some AEngine
  else if decide (k ∈ ["__init__"; "__iter__"; "__len__"; "__next__"; "put"; "get";
                       "delete"; "verify"; "add_index"; "sql_statement"]) then Some AMethod
  else if decide (k = "__class__") then Some AClass
  else None.

(** *** [class SQLite(Data)] *)

Abbreviation SQLite := (Data SQLTable SQL.Connection).

Definition SQLite_db {A} (m : M SQL.Connection A) : M SQLite A :=
  fun d => let '(r, c') := m (backend d) in (r, mkData (tables d) c').

(** [SQLite(path)]: an empty registry over the database found in the file. *)
Definition SQLite_init (c : SQL.Connection) : SQLite := mkData ∅ c.

Definition SQLite_open (name : string) : M SQLite unit :=
  SQLite_db (SQL.execute (SQL.SELECT_FROM_sqlite_master name)) ;;;
  found <- SQLite_db SQL.fetchone ;;
  match found with
  | Some (_ :: _) => ret tt
  | _ =>
      SQLite_db (SQL.execute (SQL.CREATE_TABLE name)) ;;;
      SQLite_db SQL.commit
  end ;;;
  let new_table := SQLTable_init name in
  Data_open name new_table.

Definition SQLite_exit : M SQLite unit :=
  SQLite_db SQL.commit ;;;
  SQLite_db SQL.close.

#[export] Instance SQLite_backend : Backend SQLTable SQL.Connection := {
  backend_open := SQLite_open;
  table_put key data := SQLTable_put key data [];
  table_get := SQLTable_get;
  table_delete := SQLTable_delete;
  table_verify := SQLTable_verify;
  table_getattr := SQLTable_getattr
}.

(** ** Definitions used in the statements *)

Definition key_lt (a b : bytes * bytes) : Prop := bytes_ltb (fst a) (fst b) = true.


Definition decode_pair (kv : bytes * bytes) : string * string :=
  (decode (fst kv), decode (snd kv)).

(** The key that a cursor stands on after it returned the pairs [pre]. *)
Definition position_after (pre : BDB.btree) : option bytes := fst <$> last pre.


(** What [BDB.open] leaves: the environment with the file in it. *)
Definition with_file (file : string) (e : BDB.Env) : BDB.Env := snd (BDB.open file e).

(** What [SQLite.open] leaves of the connection: the relation created if
    it was missing, everything committed, nothing to fetch. *)
Definition with_relation (name : string) (c : SQL.Connection) : SQL.Connection :=
  match SQL.relations c !! name with
  | Some _ => SQL.set_result [] c
  | None =>
      SQL.mkConnection (<[name := []]> (SQL.relations c)) (<[name := []]> (SQL.relations c))
        [] (SQL.closed c)
  end.

(** Every tree of the environment is in key order. *)
Definition env_sorted (e : BDB.Env) : bool :=
  forallb (fun ft => BDB.sorted (snd ft)) (map_to_list (BDB.files e)).

(** The tree behind the table that the facade holds under [name]. *)
Definition Berkeley_tree (name : string) (d : Berkeley) : BDB.btree :=
  match tables d !! name with
  | Some t => BDB.tree_of (db t) (env (backend d))
  | None => []
  end.

(** The rows behind the table that the facade holds under [name]. *)
Definition SQLite_rows (name : string) (d : SQLite) : SQL.relation :=
  default [] (SQL.relations (backend d) !! name).

(** The values that a SELECT of [key] finds, in row order. *)
Definition values_of (key : string) (r : SQL.relation) : list string :=
  map snd (List.filter (SQL.key_is key) r).

(** The rows that [SQLTable.put] leaves: a SELECT that finds nothing, or
    finds the empty string first, leads to the INSERT; any other value
    leads to the UPDATE of every row of the key. *)
Definition put_rows (k v : string) (rows : SQL.relation) : SQL.relation :=
  match values_of k rows with
  | [] => rows ++ [(k, v)]
  | v0 :: _ =>
      if String.eqb v0 "" then rows ++ [(k, v)]
      else map (fun kv => if SQL.key_is k kv then (k, v) else kv) rows
  end.

(** ** Example states *)

(** An empty environment whose integrity check passes and in which a name
    that is not a file name leads to no file, and an empty database. *)
Definition env0 : BDB.Env :=
  BDB.mkEnv ∅ false (fun _ => Ok tt) (fun _ => inl DBNoSuchFileError).
Definition conn0 : SQL.Connection := SQL.mkConnection ∅ ∅ [] false.

Definition after {S A} (m : M S A) (s : S) : S := snd (m s).

(** The facade after [put('games','game1','germany')] and
    [put('games','game2','usa')]. *)
Definition berkeley_games : Berkeley :=
  after (Data_put "games" (VStr "game2") (VStr "usa"))
    (after (Data_put "games" (VStr "game1") (VStr "germany")) (Berkeley_init env0)).

Definition sqlite_games : SQLite :=
  after (Data_put "games" (VStr "game2") (VStr "usa"))
    (after (Data_put "games" (VStr "game1") (VStr "germany")) (SQLite_init conn0)).


(** The two facades with a second table, [comps]. *)
Definition berkeley_two_tables : Berkeley :=
  after (Data_put "comps" (VStr "cup") (VStr "2020")) berkeley_games.

Definition sqlite_two_tables : SQLite :=
  after (Data_put "comps" (VStr "cup") (VStr "2020")) sqlite_games.

(** ** The rest of [db.py] *)

(** [removeEnv(home_folder)].  The folder is what [os.listdir] returns for
    it, with what each name is; names are unique in a folder.
    [os.remove] deletes a file and raises [OSError] for a directory.
    [db_file[0:2]] is the first two characters of the name, or the whole
    name when it is shorter; it equals two underscores exactly when the
    first two bytes of the name are underscores. *)
Module OS.

Inductive kind : Set :=
| File
| Directory.

Abbreviation folder := (list (string * kind)).

Inductive outcome : Set :=
| Returned
| OSError (db_file : string).

Definition kind_of (db_file : string) (f : folder) : option kind :=
  snd <$> List.find (fun e => String.eqb (fst e) db_file) f.

(** [os.remove(os.path.join(home_folder, db_file))]: [None] when it
    raises. *)
Definition remove (db_file : string) (f : folder) : option folder :=
  match kind_of db_file f with
  | Some File => Some (List.filter (fun e => negb (String.eqb (fst e) db_file)) f)
  | _ => None
  end.

End OS.

Definition reserved_prefix (db_file : string) : bool :=
  String.eqb (String.substring 0 2 db_file) "__".

Fixpoint removeEnv_loop (env_files : list string) (f : OS.folder) : OS.outcome * OS.folder :=
  match env_files with
  | [] => (OS.Returned, f)
  | db_file :: rest =>
      if reserved_prefix db_file then
        match OS.remove db_file f with
        | Some f' => removeEnv_loop rest f'
        | None => (OS.OSError db_file, f)
        end
      else removeEnv_loop rest f
  end.

Definition removeEnv (home_folder : OS.folder) : OS.outcome * OS.folder :=
  let env_files := map fst home_folder in
  removeEnv_loop env_files home_folder.

(** [n] calls of [next(it)], as a loop that is left with [break] after [n]
    rounds makes them. *)
Fixpoint take_next {S A} (n : nat) (next : M S A) (s : S) : result (list A) * S :=
  match n with
  | O => (Ok [], s)
  | S n' =>
      match next s with
      | (Ok x, s') =>
          match take_next n' next s' with
          | (Ok xs, s'') => (Ok (x :: xs), s'')
          | other => other
          end
      | (Raise e, s') => (Raise e, s')
      | (Unmodelled, s') => (Unmodelled, s')
      end
  end.

Definition is_text (v : value) : bool :=
  match v with VStr _ => true | _ => false end.

Definition listed (db_file : string) (names : list string) : bool :=
  existsb (String.eqb db_file) names.

(** * Properties *)

(** ** Text and bytes *)

Lemma decode_encode (s : string) : decode (encode s) = s.
Proof. apply String.string_of_list_byte_of_string. Qed.

Lemma encode_decode (b : bytes) : encode (decode b) = b.
Proof. apply String.list_byte_of_string_of_list_byte. Qed.

Lemma encode_inj (s1 s2 : string) : encode s1 = encode s2 -> s1 = s2.
Proof.
  intros H. rewrite <- (decode_encode s1), <- (decode_encode s2). now rewrite H.
Qed.

Lemma byte_to_N_inj (x y : byte) : Byte.to_N x = Byte.to_N y -> x = y.
Proof.
  intros H. pose proof (Byte.of_to_N x) as Hx. rewrite H, Byte.of_to_N in Hx.
  congruence.
Qed.

Lemma bytes_compare_eq (a b : bytes) : bytes_compare a b = Eq <-> a = b.
Proof.
  revert b. induction a as [|x a IH]; intros [|y b]; simpl; try easy.
  destruct (N.compare_spec (Byte.to_N x) (Byte.to_N y)) as [E|L|G].
  - apply byte_to_N_inj in E. subst y. rewrite IH. split; congruence.
  - split; [discriminate|]. intros [= -> _]. lia.
  - split; [discriminate|]. intros [= -> _]. lia.
Qed.

Lemma bytes_compare_refl (a : bytes) : bytes_compare a a = Eq.
Proof. now apply bytes_compare_eq. Qed.

Lemma bytes_compare_antisym (a b : bytes) :
  bytes_compare b a = CompOpp (bytes_compare a b).
Proof.
  revert b. induction a as [|x a IH]; intros [|y b]; simpl; try easy.
  rewrite (N.compare_antisym (Byte.to_N x) (Byte.to_N y)).
  destruct (Byte.to_N x ?= Byte.to_N y)%N; simpl; auto.
Qed.

Lemma bytes_lt_trans (a b c : bytes) :
  bytes_compare a b = Lt -> bytes_compare b c = Lt -> bytes_compare a c = Lt.
Proof.
  revert b c. induction a as [|x a IH]; intros [|y b] [|z c]; simpl; try easy.
  destruct (N.compare_spec (Byte.to_N x) (Byte.to_N y)) as [E|L|G]; try easy.
  - rewrite E. destruct (Byte.to_N y ?= Byte.to_N z)%N; try easy. apply IH.
  - destruct (N.compare_spec (Byte.to_N y) (Byte.to_N z)) as [E'|L'|G']; try easy.
    + rewrite <- E'. intros _ _. now rewrite (proj2 (N.compare_lt_iff _ _) L).
    + intros _ _.
      now rewrite (proj2 (N.compare_lt_iff _ _) (N.lt_trans _ _ _ L L')).
Qed.

Lemma bytes_eqb_eq (a b : bytes) : bytes_eqb a b = true <-> a = b.
Proof.
  unfold bytes_eqb. rewrite <- bytes_compare_eq.
  destruct (bytes_compare a b); split; congruence.
Qed.


Lemma bytes_eqb_neq (a b : bytes) : bytes_eqb a b = false <-> a <> b.
Proof.
  rewrite <- bytes_eqb_eq. destruct (bytes_eqb a b); split; congruence.
Qed.

Lemma bytes_ltb_irrefl (a : bytes) : bytes_ltb a a = false.
Proof. unfold bytes_ltb. now rewrite bytes_compare_refl. Qed.

Lemma bytes_ltb_trans (a b c : bytes) :
  bytes_ltb a b = true -> bytes_ltb b c = true -> bytes_ltb a c = true.
Proof.
  unfold bytes_ltb. intros H1 H2.
  destruct (bytes_compare a b) eqn:E1; try discriminate.
  destruct (bytes_compare b c) eqn:E2; try discriminate.
  now rewrite (bytes_lt_trans _ _ _ E1 E2).
Qed.

Lemma bytes_ltb_asym (a b : bytes) : bytes_ltb a b = true -> bytes_ltb b a = false.
Proof.
  unfold bytes_ltb. rewrite (bytes_compare_antisym a b).
  destruct (bytes_compare a b); simpl; congruence.
Qed.

Lemma repr_byte_length (q c : byte) : 1 <= length (repr_byte q c).
Proof.
  unfold repr_byte.
  repeat match goal with |- context [if ?b then _ else _] => destruct b end;
    simpl; lia.
Qed.

Lemma flat_map_repr_length (q : byte) (b : bytes) :
  length b <= length (flat_map (repr_byte q) b).
Proof.
  induction b as [|c b IH]; simpl; [lia|].
  rewrite length_app. pose proof (repr_byte_length q c). lia.
Qed.

Lemma bytes_repr_length (b : bytes) : length b + 3 <= length (bytes_repr b).
Proof.
  unfold bytes_repr. simpl. rewrite length_app. simpl.
  pose proof (flat_map_repr_length
    (if byte_in x27 b && negb (byte_in x22 b) then x22 else x27) b). lia.
Qed.

(** The text of a bytes object is never the text it encodes: it is at
    least three bytes longer. *)
Lemma str_of_bytes_neq (s : string) : str_of_bytes (encode s) <> s.
Proof.
  intros H. apply (f_equal encode) in H. unfold str_of_bytes in H.
  rewrite encode_decode in H. apply (f_equal (@length byte)) in H.
  pose proof (bytes_repr_length (encode s)). lia.
Qed.

(** ** The B-tree of the ordered engine *)

Lemma sorted_cons_inv (kv : bytes * bytes) (t : BDB.btree) :
  BDB.sorted (kv :: t) = true -> BDB.sorted t = true.
Proof.
  destruct kv as [k v]. destruct t as [|[k' v'] r]; [reflexivity|].
  simpl. intros H. apply andb_prop in H. tauto.
Qed.

Lemma sorted_strongly (t : BDB.btree) :
  BDB.sorted t = true -> StronglySorted key_lt t.
Proof.
  induction t as [|[k v] r IH]; intros H; [constructor|].
  pose proof (sorted_cons_inv _ _ H) as Hr. specialize (IH Hr).
  constructor; [exact IH|].
  destruct r as [|[k' v'] r']; [constructor|].
  simpl in H. apply andb_prop in H. destruct H as [Hlt _].
  inversion IH as [|? ? _ Hall]; subst.
  constructor; [exact Hlt|].
  eapply Forall_impl; [exact Hall|].
  intros [k2 v2] H2. unfold key_lt in *. simpl in *.
  eapply bytes_ltb_trans; eassumption.
Qed.

Lemma sorted_head_lt (k v : bytes) (t : BDB.btree) :
  BDB.sorted ((k, v) :: t) = true -> Forall (fun kv => bytes_ltb k (fst kv) = true) t.
Proof.
  intros H. apply sorted_strongly in H. inversion H; subst. assumption.
Qed.

Lemma lookup_above (k : bytes) (t : BDB.btree) :
  Forall (fun kv => bytes_ltb k (fst kv) = true) t -> BDB.lookup k t = None.
Proof.
  induction 1 as [|[k' v'] r Hlt _ IH]; [reflexivity|]. simpl in *.
  destruct (bytes_eqb k k') eqn:E; [|exact IH].
  apply bytes_eqb_eq in E. subst. now rewrite bytes_ltb_irrefl in Hlt.
Qed.


Lemma lookup_insert_other (k k' v : bytes) (t : BDB.btree) :
  k <> k' -> BDB.lookup k' (BDB.insert k v t) = BDB.lookup k' t.
Proof.
  intros Hne. assert (Hk : bytes_eqb k' k = false) by (apply bytes_eqb_neq; congruence).
  induction t as [|[k2 v2] r IH]; simpl.
  - now rewrite Hk.
  - destruct (bytes_compare k k2) eqn:E; simpl.
    + apply bytes_compare_eq in E. subst k2. now rewrite Hk.
    + now rewrite Hk.
    + now rewrite IH.
Qed.


Lemma sorted_remove (k : bytes) (t : BDB.btree) :
  BDB.sorted t = true -> BDB.sorted (BDB.remove k t) = true.
Proof.
  induction t as [|[k1 v1] r IH]; intros H; [reflexivity|].
  pose proof (sorted_cons_inv _ _ H) as Hr. pose proof (sorted_head_lt _ _ _ H) as Hall.
  cbn [BDB.remove]. destruct (bytes_eqb k k1); [exact Hr|].
  specialize (IH Hr).
  destruct r as [|[k2 v2] r']; [reflexivity|].
  cbn [BDB.remove] in *. destruct (bytes_eqb k k2).
  - destruct r' as [|[k3 v3] r'']; [reflexivity|].
    change (bytes_ltb k1 k3 && BDB.sorted ((k3, v3) :: r'') = true).
    inversion Hall as [|? ? _ Hall']; subst. inversion Hall' as [|? ? H3 _]; subst.
    simpl in H3. now rewrite H3, (sorted_cons_inv _ _ Hr).
  - change (bytes_ltb k1 k2 && BDB.sorted ((k2, v2) :: BDB.remove k r') = true).
    inversion Hall as [|? ? H2 _]; subst. simpl in H2. now rewrite H2, IH.
Qed.

Lemma lookup_remove_same (k : bytes) (t : BDB.btree) :
  BDB.sorted t = true -> BDB.lookup k (BDB.remove k t) = None.
Proof.
  induction t as [|[k1 v1] r IH]; intros H; [reflexivity|].
  pose proof (sorted_cons_inv _ _ H) as Hr.
  cbn [BDB.remove]. destruct (bytes_eqb k k1) eqn:E.
  - apply bytes_eqb_eq in E. subst k1. apply lookup_above. eapply sorted_head_lt, H.
  - simpl. rewrite E. now apply IH.
Qed.





(** ** Iteration over a table of the ordered engine *)

Lemma find_app_skip {A} (f : A -> bool) (l1 l2 : list A) :
  Forall (fun x => f x = false) l1 -> find f (l1 ++ l2) = find f l2.
Proof.
  induction 1 as [|x l Hx _ IH]; [reflexivity|]. simpl. now rewrite Hx.
Qed.

Lemma successor_split (pre suf : BDB.btree) :
  BDB.sorted (pre ++ suf) = true ->
  BDB.successor (position_after pre) (pre ++ suf) = head suf.
Proof.
  intros Hs. destruct pre as [|p pre0] using rev_ind; [reflexivity|].
  clear IHpre0. destruct p as [k v]. unfold position_after. rewrite last_snoc.
  simpl. rewrite <- app_assoc. simpl.
  apply sorted_strongly in Hs. rewrite <- app_assoc in Hs. simpl in Hs.
  pose proof (StronglySorted_app_1_r _ _ _ Hs) as Hr.
  rewrite find_app_skip.
  - simpl. rewrite bytes_ltb_irrefl.
    inversion Hr as [|? ? _ Hall]; subst.
    destruct suf as [|[k2 v2] suf']; [reflexivity|].
    inversion Hall as [|? ? H2 _]; subst. unfold key_lt in H2. simpl in *.
    now rewrite H2.
  - rewrite Forall_forall. intros [k0 v0] Hin. simpl.
    apply bytes_ltb_asym.
    change (key_lt (k0, v0) (k, v)).
    eapply StronglySorted_app_1_elem_of; [exact Hs|exact Hin|left].
Qed.

Lemma Table_next_yield n c idx h e k v :
  BDB.db_closed h = false ->
  BDB.successor (BDB.position c) (BDB.tree_of h e) = Some (k, v) ->
  Table_next (mkTable n (Some c) idx h, e) =
    (Ok (decode k, decode v), (mkTable n (Some (BDB.mkCursor (Some k))) idx h, e)).
Proof.
  intros Hopen Hsucc.
  unfold Table_next, self, set_self, engine, bind, gets, modify, ret, BDB.next.
  simpl. rewrite Hopen, Hsucc. reflexivity.
Qed.

Lemma Table_next_stop n c idx h e :
  BDB.db_closed h = false ->
  BDB.successor (BDB.position c) (BDB.tree_of h e) = None ->
  Table_next (mkTable n (Some c) idx h, e) =
    (Raise StopIteration, (mkTable n None idx h, e)).
Proof.
  intros Hopen Hsucc.
  unfold Table_next, self, set_self, engine, bind, gets, modify, ret, raise, BDB.next.
  simpl. rewrite Hopen, Hsucc. reflexivity.
Qed.

(** With no cursor open, [__next__] opens one and goes on as with a cursor
    that stands nowhere yet. *)
Lemma Table_next_start n idx h e :
  BDB.db_closed h = false ->
  Table_next (mkTable n None idx h, e) =
  Table_next (mkTable n (Some (BDB.mkCursor None)) idx h, e).
Proof.
  intros Hopen.
  unfold Table_next, self, set_self, engine, bind, gets, modify, ret, raise,
    BDB.next, BDB.cursor.
  simpl. rewrite Hopen. reflexivity.
Qed.

Lemma drain_Table_next_from n idx h e (suf pre : BDB.btree) c fuel :
  BDB.db_closed h = false ->
  BDB.tree_of h e = pre ++ suf ->
  BDB.sorted (pre ++ suf) = true ->
  BDB.position c = position_after pre ->
  length suf < fuel ->
  drain fuel Table_next (mkTable n (Some c) idx h, e) =
    Some (Ok (map decode_pair suf), (mkTable n None idx h, e)).
Proof.
  intros Hopen. revert pre c fuel.
  induction suf as [|[k v] suf IH]; intros pre c fuel Htree Hs Hpos Hfuel.
  - destruct fuel as [|fuel]; [simpl in Hfuel; lia|]. simpl.
    rewrite Table_next_stop; [reflexivity|exact Hopen|].
    rewrite Hpos, Htree. now rewrite successor_split.
  - destruct fuel as [|fuel]; [simpl in Hfuel; lia|]. simpl.
    rewrite (Table_next_yield n c idx h e k v Hopen).
    + rewrite (IH (pre ++ [(k, v)]) (BDB.mkCursor (Some k)) fuel).
      * reflexivity.
      * now rewrite <- app_assoc.
      * now rewrite <- app_assoc.
      * unfold position_after. now rewrite last_snoc.
      * simpl in Hfuel. lia.
    + rewrite Hpos, Htree. now rewrite successor_split.
Qed.

(** A full scan of a table with no cursor open returns the pairs of its
    tree, in key order, and leaves the table and the engine as they
    were. *)
Lemma Table_scan (t : BSDTable) (e : BDB.Env) (fuel : nat) :
  cursor t = None ->
  BDB.db_closed (db t) = false ->
  BDB.sorted (BDB.tree_of (db t) e) = true ->
  length (BDB.tree_of (db t) e) < fuel ->
  drain fuel Table_next (t, e) =
    Some (Ok (map decode_pair (BDB.tree_of (db t) e)), (t, e)).
Proof.
  destruct t as [n c idx h]. simpl. intros -> Hopen Hs Hfuel.
  destruct fuel as [|fuel]; [lia|].
  cbn [drain]. rewrite (Table_next_start n idx h e Hopen).
  change (drain (S fuel) Table_next (mkTable n (Some (BDB.mkCursor None)) idx h, e) =
          Some (Ok (map decode_pair (BDB.tree_of h e)), (mkTable n None idx h, e))).
  apply (drain_Table_next_from n idx h e (BDB.tree_of h e) []); auto.
Qed.

(** ** Iteration over a table of the relational engine *)


Lemma fetchone_cons c r rs :
  SQL.closed c = false ->
  SQL.fetchone (SQL.set_result (r :: rs) c) = (Ok (Some r), SQL.set_result rs c).
Proof. intros Hopen. unfold SQL.fetchone. simpl. now rewrite Hopen. Qed.

Lemma fetchone_nil c :
  SQL.closed c = false ->
  SQL.fetchone (SQL.set_result [] c) = (Ok None, SQL.set_result [] c).
Proof. intros Hopen. unfold SQL.fetchone. simpl. now rewrite Hopen. Qed.












(** ** The registry of the facade *)

Section Registry.
Context {T B : Type} `{!Backend T B}.

Lemma on_table_unknown {A} (name : string) (method : M (T * B) A) (d : Data T B) :
  tables d !! name = None -> on_table name method d = (Raise KeyError, d).
Proof. intros H. unfold on_table. now rewrite H. Qed.

Lemma on_table_known {A} (name : string) (method : M (T * B) A) (d : Data T B) (t : T) :
  tables d !! name = Some t ->
  on_table name method d =
    (fst (method (t, backend d)),
     mkData (<[name := fst (snd (method (t, backend d)))]> (tables d))
            (snd (snd (method (t, backend d))))).
Proof.
  intros H. unfold on_table. rewrite H.
  now destruct (method (t, backend d)) as [r [t' b']].
Qed.

Lemma on_table_registered {A} (name : string) (method : M (T * B) A) (d : Data T B) :
  is_Some (tables d !! name) ->
  is_Some (tables (snd (on_table name method d)) !! name).
Proof.
  intros [t Ht]. rewrite (on_table_known name method d t Ht). simpl.
  rewrite lookup_insert_eq. eauto.
Qed.

Lemma assert_exist_known (name : string) (d : Data T B) :
  is_Some (tables d !! name) -> assert_exist name d = (Ok tt, d).
Proof.
  intros H. unfold assert_exist. apply elem_of_dom in H. now rewrite decide_True.
Qed.

Lemma assert_exist_unknown (name : string) (d : Data T B) :
  tables d !! name = None -> assert_exist name d = backend_open name d.
Proof.
  intros H. unfold assert_exist. rewrite decide_False; [reflexivity|].
  rewrite elem_of_dom, H. intros [? ?]. discriminate.
Qed.

(** A call that starts with [assert_exist] and goes on with a method of
    the table leaves the name registered, whatever the method does,
    provided the table could be opened. *)
Lemma after_assert_exist_registered {A} (name : string) (method : M (T * B) A)
    (d d1 : Data T B) :
  assert_exist name d = (Ok tt, d1) ->
  is_Some (tables d1 !! name) ->
  is_Some (tables (snd ((assert_exist name ;;; on_table name method) d)) !! name).
Proof.
  intros Ha Hs. unfold bind. rewrite Ha. now apply on_table_registered.
Qed.

Lemma Data_verify_unknown (name : string) (d : Data T B) :
  tables d !! name = None -> Data_verify name d = (Raise KeyError, d).
Proof. intros H. unfold Data_verify. now apply on_table_unknown. Qed.

End Registry.

(** [open] on an open environment either raises and leaves the
    environment as it was, or returns an open handle on the file that the
    name leads to. *)
Lemma BDB_open_cases (file : string) (e : BDB.Env) :
  BDB.env_closed e = false ->
  (exists x, BDB.open file e = (Raise x, e)) \/
  (exists f, BDB.open file e = (Ok (BDB.mkDB f false), with_file file e)).
Proof.
  intros H. unfold with_file, BDB.open. rewrite H.
  destruct (BDB.file_of e file) as [x|f]; [left|right]; eauto.
Qed.

Lemma BDB_open_ok (file : string) (e : BDB.Env) :
  BDB.env_closed e = false ->
  BDB.file_name file = true ->
  BDB.open file e = (Ok (BDB.mkDB file false), with_file file e).
Proof. intros H Hf. unfold with_file, BDB.open, BDB.file_of. now rewrite H, Hf. Qed.

Lemma with_file_env_closed (file : string) (e : BDB.Env) :
  BDB.env_closed (with_file file e) = BDB.env_closed e.
Proof.
  unfold with_file, BDB.open. destruct (BDB.env_closed e) eqn:E; [simpl; congruence|].
  destruct (BDB.file_of e file); simpl; congruence.
Qed.

Lemma with_file_tree (file : string) (h : BDB.DB) (e : BDB.Env) :
  BDB.tree_of h (with_file file e) = BDB.tree_of h e.
Proof.
  unfold with_file, BDB.open, BDB.tree_of.
  destruct (BDB.env_closed e); [reflexivity|].
  destruct (BDB.file_of e file) as [x|f]; [reflexivity|]. simpl.
  destruct (BDB.files e !! f) eqn:E; [reflexivity|].
  destruct (decide (f = BDB.db_file h)) as [<-|Hne].
  - now rewrite lookup_insert_eq, E.
  - now rewrite lookup_insert_ne.
Qed.

Lemma Berkeley_open_cases (name : string) (d : Berkeley) :
  BDB.env_closed (env (backend d)) = false ->
  (exists x, Berkeley_open name d = (Raise x, d)) \/
  (exists f, Berkeley_open name d =
     (Ok tt,
      mkData (<[name := BSDTable_init name (BDB.mkDB f false)]> (tables d))
             (mkBerkeley (with_file (name +:+ ".db") (env (backend d)))
                         (attrs (backend d))))).
Proof.
  intros H. unfold Berkeley_open, Berkeley_env, Data_open, bind, modify.
  destruct (BDB_open_cases (name +:+ ".db") _ H) as [[x ->]|[f ->]]; [left|right].
  - exists x. now destruct d as [tbs [e a]].
  - exists f. reflexivity.
Qed.

Lemma Berkeley_open_ok (name : string) (d : Berkeley) :
  BDB.env_closed (env (backend d)) = false ->
  BDB.file_name (name +:+ ".db") = true ->
  Berkeley_open name d =
    (Ok tt,
     mkData (<[name := BSDTable_init name (BDB.mkDB (name +:+ ".db") false)]> (tables d))
            (mkBerkeley (with_file (name +:+ ".db") (env (backend d))) (attrs (backend d)))).
Proof.
  intros H Hf. unfold Berkeley_open, Berkeley_env, Data_open, bind, modify.
  now rewrite (BDB_open_ok _ _ H Hf).
Qed.

(** [SQLite.open] with the connection open: the table is registered when
    its relation exists already or can be created; otherwise the call ends
    in the CREATE TABLE, the registry is as it was and the cursor has
    nothing to fetch. *)
Lemma SQLite_open_cases (name : string) (d : SQLite) :
  SQL.closed (backend d) = false ->
  SQLite_open name d =
    match SQL.relations (backend d) !! name with
    | Some _ =>
        (Ok tt, mkData (<[name := SQLTable_init name]> (tables d))
                       (with_relation name (backend d)))
    | None =>
        if SQL.identifier name then
          if SQL.clash name (backend d) then
            (Raise OperationalError, mkData (tables d) (SQL.set_result [] (backend d)))
          else
            (Ok tt, mkData (<[name := SQLTable_init name]> (tables d))
                           (with_relation name (backend d)))
        else if SQL.two_words name then
          (Raise OperationalError, mkData (tables d) (SQL.set_result [] (backend d)))
        else (Unmodelled, mkData (tables d) (SQL.set_result [] (backend d)))
    end.
Proof.
  intros H. destruct d as [tbs c]. simpl in H.
  unfold SQLite_open, SQLite_db, Data_open, bind, modify, ret, with_relation,
    SQL.execute, SQL.fetchone, SQL.commit, SQL.run.
  simpl. rewrite H.
  destruct (SQL.relations c !! name) eqn:E; simpl; rewrite ?H; [reflexivity|].
  destruct (SQL.identifier name); simpl; rewrite ?E, ?H.
  - assert (Hcl : SQL.clash name (SQL.set_result [] c) = SQL.clash name c) by reflexivity.
    rewrite Hcl. destruct (SQL.clash name c); simpl; rewrite ?H; reflexivity.
  - destruct (SQL.two_words name); reflexivity.
Qed.

Lemma SQLite_open_ok (name : string) (d : SQLite) :
  SQL.closed (backend d) = false ->
  SQL.identifier name = true ->
  SQL.clash name (backend d) = false ->
  SQLite_open name d =
    (Ok tt, mkData (<[name := SQLTable_init name]> (tables d))
                   (with_relation name (backend d))).
Proof.
  intros H Hi Hc. rewrite (SQLite_open_cases name d H), Hi, Hc.
  now destruct (SQL.relations (backend d) !! name).
Qed.

Lemma with_relation_closed (name : string) (c : SQL.Connection) :
  SQL.closed (with_relation name c) = SQL.closed c.
Proof. unfold with_relation. now destruct (SQL.relations c !! name). Qed.

Lemma bind_ret_state {S A} (m : M S A) (s : S) :
  snd ((x <- m ;; ret x) s) = snd (m s).
Proof. unfold bind, ret. now destruct (m s) as [[a|e|] s']. Qed.

Lemma Berkeley_assert_exist_unknown (name : string) (d : Berkeley) :
  tables d !! name = None ->
  BDB.env_closed (env (backend d)) = false ->
  BDB.file_name (name +:+ ".db") = true ->
  exists d1, assert_exist name d = (Ok tt, d1) /\ is_Some (tables d1 !! name).
Proof.
  intros Hn Ho Hf. rewrite (assert_exist_unknown name d Hn).
  change (backend_open name d) with (Berkeley_open name d).
  rewrite (Berkeley_open_ok name d Ho Hf). eexists. split; [reflexivity|].
  simpl. rewrite lookup_insert_eq. eauto.
Qed.

Lemma SQLite_assert_exist_unknown (name : string) (d : SQLite) :
  tables d !! name = None ->
  SQL.closed (backend d) = false ->
  SQL.identifier name = true ->
  SQL.clash name (backend d) = false ->
  exists d1, assert_exist name d = (Ok tt, d1) /\ is_Some (tables d1 !! name).
Proof.
  intros Hn Ho Hi Hc. rewrite (assert_exist_unknown name d Hn).
  change (backend_open name d) with (SQLite_open name d).
  rewrite (SQLite_open_ok name d Ho Hi Hc). eexists. split; [reflexivity|].
  simpl. rewrite lookup_insert_eq. eauto.
Qed.

(** C10. [verify(name)] on a name that the registry does not hold raises
    [KeyError] from the lookup [self.tables[name]] and opens nothing,
    while [put], [get] and [delete] on such a name start with
    [assert_exist], which calls [open] for it.  Where the engine opens the
    table ([name + '.db'] is a file name for the ordered engine; [name] is
    an identifier that no stored table name clashes with for the
    relational one), the name is registered afterwards, whatever the
    method of the table goes on to do. *)
Theorem C10_verify_does_not_auto_open
    (name : string) (key data : value) (b : Berkeley) (s : SQLite) :
  tables b !! name = None ->
  tables s !! name = None ->
  BDB.env_closed (env (backend b)) = false ->
  SQL.closed (backend s) = false ->
  (Data_verify name b = (Raise KeyError, b) /\
   Data_verify name s = (Raise KeyError, s)) /\
  (assert_exist name b = Berkeley_open name b /\
   assert_exist name s = SQLite_open name s) /\
  (BDB.file_name (name +:+ ".db") = true ->
   is_Some (tables (after (Data_put name key data) b) !! name) /\
   is_Some (tables (after (Data_get name key) b) !! name) /\
   is_Some (tables (after (Data_delete name key) b) !! name)) /\
  (SQL.identifier name = true ->
   SQL.clash name (backend s) = false ->
   is_Some (tables (after (Data_put name key data) s) !! name) /\
   is_Some (tables (after (Data_get name key) s) !! name) /\
   is_Some (tables (after (Data_delete name key) s) !! name)).
Proof.
  intros Hb Hs Hbo Hso.
  split; [split; now apply Data_verify_unknown|].
  split.
  { split; [exact (assert_exist_unknown name b Hb)|exact (assert_exist_unknown name s Hs)]. }
  unfold after, Data_put, Data_get, Data_delete. split.
  - intros Hf.
    destruct (Berkeley_assert_exist_unknown name b Hb Hbo Hf) as [b1 [Hb1 Hb1s]].
    split; [|split].
    + now apply (after_assert_exist_registered name _ b b1).
    + unfold bind at 1. rewrite Hb1. rewrite bind_ret_state.
      now apply on_table_registered.
    + now apply (after_assert_exist_registered name _ b b1).
  - intros Hi Hc.
    destruct (SQLite_assert_exist_unknown name s Hs Hso Hi Hc) as [s1 [Hs1 Hs1s]].
    split; [|split].
    + now apply (after_assert_exist_registered name _ s s1).
    + unfold bind at 1. rewrite Hs1. rewrite bind_ret_state.
      now apply on_table_registered.
    + now apply (after_assert_exist_registered name _ s s1).
Qed.

Lemma C10_witness :
  (Data_verify "games" (Berkeley_init env0) = (Raise KeyError, Berkeley_init env0) /\
   Data_verify "games" (SQLite_init conn0) = (Raise KeyError, SQLite_init conn0)) /\
  (is_Some (tables (after (Data_put "games" (VStr "game1") (VStr "germany"))
                      (Berkeley_init env0)) !! "games") /\
   is_Some (tables (after (Data_get "games" (VStr "game1")) (Berkeley_init env0)) !! "games") /\
   is_Some (tables (after (Data_delete "games" (VStr "game1")) (Berkeley_init env0)) !! "games")) /\
  (is_Some (tables (after (Data_put "games" (VStr "game1") (VStr "germany"))
                      (SQLite_init conn0)) !! "games") /\
   is_Some (tables (after (Data_get "games" (VStr "game1")) (SQLite_init conn0)) !! "games") /\
   is_Some (tables (after (Data_delete "games" (VStr "game1")) (SQLite_init conn0)) !! "games")).
Proof.
  destruct (C10_verify_does_not_auto_open "games" (VStr "game1") (VStr "germany")
              (Berkeley_init env0) (SQLite_init conn0))
    as [Hv [_ [Hb Hs]]]; try reflexivity.
  split; [exact Hv|]. split; [apply Hb|apply Hs]; reflexivity.
Defined.

(** ** [Data.table] *)

Section Dispatch.
Context {T B : Type} `{!Backend T B}.

Lemma Data_table_no_selector (name : string) (d d1 : Data T B) (t : T) :
  assert_exist name d = (Ok tt, d1) ->
  tables d1 !! name = Some t ->
  fst (Data_table name [] d) = Ok (HTable t) /\
  tables (after (Data_table name []) d) !! name = Some t.
Proof.
  intros Ha Ht.
  assert (E : Data_table name [] d =
              (Ok (HTable t), mkData (<[name := t]> (tables d1)) (backend d1))).
  { unfold Data_table. cbn [existsb rev]. unfold bind at 1. rewrite Ha.
    now rewrite (on_table_known name _ d1 t Ht). }
  unfold after. rewrite E. split; [reflexivity|]. apply lookup_insert_eq.
Qed.

Lemma Data_table_selector (name k : string) (v : value) (d d1 : Data T B) (t : T) :
  k ∉ table_parameters ->
  assert_exist name d = (Ok tt, d1) ->
  tables d1 !! name = Some t ->
  (forall s : Data T B,
     match table_getattr t k with
     | None => raise AttributeError
     | Some index_obj => setattr_cursor_value index_obj v
     end s = (Raise AttributeError, s)) ->
  fst (Data_table name [(k, v)] d) = Raise AttributeError.
Proof.
  intros Hk Ha Ht Hattr. unfold Data_table. cbn [existsb fst orb].
  rewrite (bool_decide_eq_false_2 _ Hk). cbn [orb rev app].
  unfold bind at 1. rewrite Ha.
  unfold bind. rewrite (on_table_known name self d1 t Ht). simpl.
  now rewrite Hattr.
Qed.

(** A selector that is the name of a parameter of [table] is refused
    before anything is opened or looked up, wherever it stands among the
    selectors. *)
Lemma Data_table_parameter (name k : string) (v : value)
    (before rest : list (string * value)) (d : Data T B) :
  k ∈ table_parameters ->
  Data_table name (before ++ (k, v) :: rest) d = (Raise TypeError, d).
Proof.
  intros Hk. unfold Data_table. rewrite existsb_app. cbn [existsb fst].
  rewrite (bool_decide_eq_true_2 _ Hk). cbn [orb]. now rewrite orb_true_r.
Qed.

(** The selector [__class__] finds the class of the table, which takes
    the new attribute: the call returns the class. *)
Lemma Data_table_class (name : string) (v : value) (d d1 : Data T B) (t : T) :
  assert_exist name d = (Ok tt, d1) ->
  tables d1 !! name = Some t ->
  table_getattr t "__class__" = Some AClass ->
  fst (Data_table name [("__class__", v)] d) = Ok HClass.
Proof.
  intros Ha Ht Hattr. unfold Data_table.
  assert (Hp : existsb (fun kv : string * value => bool_decide (fst kv ∈ table_parameters))
                 [("__class__", v)] = false) by reflexivity.
  rewrite Hp. cbn [rev app]. unfold bind at 1. rewrite Ha.
  unfold bind. rewrite (on_table_known name self d1 t Ht). simpl.
  now rewrite Hattr.
Qed.

End Dispatch.

Lemma BSDTable_no_index_attribute (t : BSDTable) (k : string) (v : value) (s : Berkeley) :
  k <> "__class__" ->
  match BSDTable_getattr t k with
  | None => raise AttributeError
  | Some index_obj => setattr_cursor_value index_obj v
  end s = (Raise AttributeError, s).
Proof.
  intros Hk. unfold BSDTable_getattr.
  repeat (case_decide; [try destruct (cursor t); reflexivity|]); try reflexivity.
  case_decide; [contradiction|reflexivity].
Qed.

Lemma SQLTable_no_index_attribute (t : SQLTable) (k : string) (v : value) (s : SQLite) :
  k <> "__class__" ->
  match SQLTable_getattr t k with
  | None => raise AttributeError
  | Some index_obj => setattr_cursor_value index_obj v
  end s = (Raise AttributeError, s).
Proof.
  intros Hk. unfold SQLTable_getattr.
  repeat (case_decide; [try destruct (cursor t); reflexivity|]); try reflexivity.
  case_decide; [contradiction|reflexivity].
Qed.

Lemma Berkeley_assert_exist_ok (name : string) (d : Berkeley) :
  BDB.env_closed (env (backend d)) = false ->
  (tables d !! name = None -> BDB.file_name (name +:+ ".db") = true) ->
  exists d1 t, assert_exist name d = (Ok tt, d1) /\ tables d1 !! name = Some t.
Proof.
  intros Ho Hf. destruct (tables d !! name) as [t|] eqn:E.
  - exists d, t. split; [apply assert_exist_known; eauto|exact E].
  - destruct (Berkeley_assert_exist_unknown name d E Ho (Hf eq_refl)) as [d1 [H1 [t Ht]]].
    eauto.
Qed.

Lemma SQLite_assert_exist_ok (name : string) (d : SQLite) :
  SQL.closed (backend d) = false ->
  (tables d !! name = None ->
   SQL.identifier name = true /\ SQL.clash name (backend d) = false) ->
  exists d1 t, assert_exist name d = (Ok tt, d1) /\ tables d1 !! name = Some t.
Proof.
  intros Ho Hi. destruct (tables d !! name) as [t|] eqn:E.
  - exists d, t. split; [apply assert_exist_known; eauto|exact E].
  - destruct (Hi eq_refl) as [Hid Hcl].
    destruct (SQLite_assert_exist_unknown name d E Ho Hid Hcl) as [d1 [H1 [t Ht]]]. eauto.
Qed.

(** C7, as the code has it.  For a table name that is registered, or that
    the backend can open ([name + '.db'] a file name for the ordered
    engine; an identifier that no stored table name clashes with for the
    relational one): [table(name)] with no selector returns the table
    registered under [name], opening it first if need be, and
    [table(name, indexName=value)] with one selector whose name was never
    registered through [add_index], and is none of the names [self],
    [name] and [__class__], to which Python itself gives a meaning in this
    call, fails with [AttributeError]: the code has no
    [UnknownIndexError]. *)
Theorem C7_table_dispatch
    (name k : string) (v : value) (b : Berkeley) (s : SQLite) :
  BDB.env_closed (env (backend b)) = false ->
  SQL.closed (backend s) = false ->
  (tables b !! name = None -> BDB.file_name (name +:+ ".db") = true) ->
  (tables s !! name = None ->
   SQL.identifier name = true /\ SQL.clash name (backend s) = false) ->
  attrs (backend b) !! k = None ->
  (forall t, tables s !! name = Some t -> indexes t !! k = None) ->
  k ∉ ["self"; "name"; "__class__"] ->
  (exists t, fst (Data_table name [] b) = Ok (HTable t) /\
             tables (after (Data_table name []) b) !! name = Some t) /\
  (exists t, fst (Data_table name [] s) = Ok (HTable t) /\
             tables (after (Data_table name []) s) !! name = Some t) /\
  fst (Data_table name [(k, v)] b) = Raise AttributeError /\
  fst (Data_table name [(k, v)] s) = Raise AttributeError.
Proof.
  intros Hbo Hso Hbn Hsn _ _ Hk.
  destruct (Berkeley_assert_exist_ok name b Hbo Hbn) as [b1 [tb [Hb1 Htb]]].
  destruct (SQLite_assert_exist_ok name s Hso Hsn) as [s1 [ts [Hs1 Hts]]].
  assert (Hp : k ∉ table_parameters).
  { intros Hin. apply Hk. unfold table_parameters in Hin.
    rewrite !elem_of_cons in *. tauto. }
  assert (Hc : k <> "__class__").
  { intros ->. apply Hk. rewrite !elem_of_cons. tauto. }
  split; [|split; [|split]].
  - exists tb. now apply (Data_table_no_selector name b b1).
  - exists ts. now apply (Data_table_no_selector name s s1).
  - apply (Data_table_selector name k v b b1 tb Hp Hb1 Htb).
    intros s0. now apply BSDTable_no_index_attribute.
  - apply (Data_table_selector name k v s s1 ts Hp Hs1 Hts).
    intros s0. now apply SQLTable_no_index_attribute.
Qed.

Lemma C7_witness :
  (exists t, fst (Data_table "games" [] berkeley_games) = Ok (HTable t) /\
             tables (after (Data_table "games" []) berkeley_games) !! "games" = Some t) /\
  (exists t, fst (Data_table "games" [] sqlite_games) = Ok (HTable t) /\
             tables (after (Data_table "games" []) sqlite_games) !! "games" = Some t) /\
  fst (Data_table "games" [("date", VStr "2020-10-26")] berkeley_games) = Raise AttributeError /\
  fst (Data_table "games" [("date", VStr "2020-10-26")] sqlite_games) = Raise AttributeError.
Proof.
  apply (C7_table_dispatch "games" "date" (VStr "2020-10-26") berkeley_games sqlite_games).
  - reflexivity.
  - reflexivity.
  - intros Hn. vm_compute in Hn. discriminate.
  - intros Hn. vm_compute in Hn. discriminate.
  - reflexivity.
  - intros t Ht. vm_compute in Ht. injection Ht as <-. reflexivity.
  - apply (bool_decide_unpack _). vm_compute. reflexivity.
Defined.

(** C7 as stated fails: the selector [date] was never registered, and the
    call raises [AttributeError], which is not an [UnknownIndexError].
    Nor is what the three names of Python's own lead to: [name] and [self]
    raise [TypeError], and [__class__] raises nothing.  And [table(name)]
    does not return the table for every name: in a database that holds a
    table [Games], the CREATE TABLE for [games] fails. *)
Lemma C7_counterexample :
  fst (Data_table "games" [("date", VStr "2020-10-26")] berkeley_games) = Raise AttributeError /\
  fst (Data_table "games" [("date", VStr "2020-10-26")] sqlite_games) = Raise AttributeError /\
  exn_name AttributeError <> "UnknownIndexError" /\
  fst (Data_table "games" [("name", VStr "2020-10-26")] berkeley_games) = Raise TypeError /\
  fst (Data_table "games" [("self", VStr "2020-10-26")] sqlite_games) = Raise TypeError /\
  exn_name TypeError <> "UnknownIndexError" /\
  fst (Data_table "games" [("__class__", VStr "2020-10-26")] berkeley_games) = Ok HClass /\
  fst (Data_table "games" []
         (SQLite_init (SQL.mkConnection {["Games" := []]} {["Games" := []]} [] false))) =
    Raise OperationalError.
Proof. repeat split; try reflexivity; discriminate. Qed.

(** ** [add_index] *)

(** C9 at failing inputs.  [Berkeley.add_index] with the name of a table
    of the facade reaches the guard, which raises a string: Python reports
    [TypeError], not an error of the kind that the guard names.  A name
    that was given to [add_index] before is not looked for at all: the
    second call goes the way of the first and ends in the same
    [AttributeError].  [SQLTable.add_index] looks the name up in
    [indexes], which no call ever fills: the first call and the second end
    alike in the [OperationalError] of the ALTER TABLE. *)
Theorem C9_add_index_collision_raises_no_duplicate_error :
  let index_callback : bytes -> bytes -> bytes := fun _ _ => [] in
  Berkeley_add_index "games" index_callback "games" berkeley_games =
    Some (Raise TypeError, berkeley_games) /\
  exn_name TypeError <> "DuplicateIndexError" /\
  (exists b1 b2,
     Berkeley_add_index "date" index_callback "games" berkeley_games =
       Some (Raise AttributeError, b1) /\
     is_Some (attrs (backend b1) !! "date") /\
     Berkeley_add_index "date" index_callback "games" b1 =
       Some (Raise AttributeError, b2)) /\
  (let r1 := SQLTable_add_index "date" (SQLTable_init "games", backend sqlite_games) in
   fst r1 = Raise OperationalError /\
   indexes (fst (snd r1)) = ∅ /\
   fst (SQLTable_add_index "date" (snd r1)) = Raise OperationalError).
Proof.
  cbv zeta. split; [reflexivity|]. split; [discriminate|]. split.
  - eexists. eexists. split; [reflexivity|]. split; [vm_compute; eauto|reflexivity].
  - repeat split; reflexivity.
Qed.

(** ** Where the code departs from its specification *)

(** C1 at a failing input, on the relational backend: once the key holds
    the empty string, [put] inserts a second row instead of updating, and
    [get] goes on returning the first one. *)
Theorem C1_sqlite_put_get_after_empty_value :
  let d1 := after (Data_put "games" (VStr "game1") (VStr "")) (SQLite_init conn0) in
  let d2 := after (Data_put "games" (VStr "game1") (VStr "germany")) d1 in
  fst (Data_put "games" (VStr "game1") (VStr "germany") d1) = Ok tt /\
  fst (Data_get "games" (VStr "game1") d2) = Ok (VStr "") /\
  SQL.relations (backend d2) !! "games" = Some [("game1", ""); ("game1", "germany")].
Proof. repeat split; reflexivity. Qed.

(** C2 at a failing input, on the ordered backend: [get] on a key that
    was never written raises [AttributeError] ([None] has no [decode]);
    the relational backend returns [None]. *)
Theorem C2_berkeley_get_missing_key_raises :
  fst (Data_get "games" (VStr "game1") (Berkeley_init env0)) = Raise AttributeError /\
  fst (Data_get "games" (VStr "game3") berkeley_games) = Raise AttributeError /\
  fst (Data_get "games" (VStr "game1") (SQLite_init conn0)) = Ok VNone.
Proof. repeat split; reflexivity. Qed.

(** C3 at failing inputs.  On the relational backend [delete] through the
    facade succeeds and removes nothing: the key arrives as bytes and is
    turned into the text of their [repr].  On the ordered backend [delete]
    of an absent key raises [DBNotFoundError], and [get] after a [delete]
    raises [AttributeError]. *)
Theorem C3_delete_through_facade :
  let s := after (Data_delete "games" (VStr "game1")) sqlite_games in
  let b := after (Data_delete "games" (VStr "game1")) berkeley_games in
  fst (Data_delete "games" (VStr "game1") sqlite_games) = Ok tt /\
  fst (Data_get "games" (VStr "game1") s) = Ok (VStr "germany") /\
  fst (Data_delete "games" (VStr "game3") berkeley_games) = Raise DBNotFoundError /\
  fst (Data_delete "games" (VStr "game1") berkeley_games) = Ok tt /\
  fst (Data_get "games" (VStr "game1") b) = Raise AttributeError.
Proof. repeat split; reflexivity. Qed.

(** C4 at a failing input, on the relational backend: two [put]s to one
    key, the first with the empty string, leave two rows for the key;
    [len] of the table is 2 and [get] returns the first value. *)
Theorem C4_sqlite_put_twice_after_empty_value :
  let d1 := after (Data_put "games" (VStr "game1") (VStr "")) (SQLite_init conn0) in
  let d2 := after (Data_put "games" (VStr "game1") (VStr "germany")) d1 in
  fst (Data_get "games" (VStr "game1") d2) = Ok (VStr "") /\
  fst (on_table "games" (len SQLTable_len) d1) = Ok 1 /\
  fst (on_table "games" (len SQLTable_len) d2) = Ok 2 /\
  SQL.relations (backend d2) !! "games" = Some [("game1", ""); ("game1", "germany")].
Proof. repeat split; reflexivity. Qed.

Lemma Berkeley_exit_raises (d : Berkeley) : Berkeley_exit d = (Raise AttributeError, d).
Proof. reflexivity. Qed.

(** C5 on the ordered backend: leaving the scope runs [Berkeley.close],
    which raises [AttributeError] at [self.indexes] whatever the body did,
    and closes nothing: in the example the environment and the handle of
    the table are still open. *)
Theorem C5_berkeley_exit_closes_nothing {A} (body : M Berkeley A) (d : Berkeley) :
  with_ body Berkeley_exit d = (Raise AttributeError, snd (body d)) /\
  (let d' := snd (with_ (Data_put "games" (VStr "game1") (VStr "germany")) Berkeley_exit
                    (Berkeley_init env0)) in
   BDB.env_closed (env (backend d')) = false /\
   (BDB.db_closed ∘ db) <$> tables d' !! "games" = Some false).
Proof.
  split.
  - unfold with_. destruct (body d) as [r d1]. now rewrite Berkeley_exit_raises.
  - cbv zeta. split; reflexivity.
Qed.

(** C8 on the ordered backend: the scan yields both pairs and the tree
    holds two pairs, then one after the [delete]; but [len] of the table
    raises [TypeError], for want of a [__len__]. *)
Theorem C8_berkeley_scenario :
  let d := after (Data_delete "games" (VStr "game1")) berkeley_games in
  drain 3 (on_table "games" (in_env Table_next)) berkeley_games =
    Some (Ok [("game1", "germany"); ("game2", "usa")], berkeley_games) /\
  length (BDB.tree_of (BDB.mkDB "games.db" false) (env (backend berkeley_games))) = 2 /\
  fst (on_table "games" (in_env (len BSDTable_len)) berkeley_games) = Raise TypeError /\
  fst (Data_delete "games" (VStr "game1") berkeley_games) = Ok tt /\
  length (BDB.tree_of (BDB.mkDB "games.db" false) (env (backend d))) = 1 /\
  fst (on_table "games" (in_env (len BSDTable_len)) d) = Raise TypeError.
Proof. repeat split; reflexivity. Qed.

(** ** The ordered backend, operation by operation *)

Lemma tree_of_set_tree (h : BDB.DB) (t : BDB.btree) (e : BDB.Env) :
  BDB.tree_of h (BDB.set_tree h t e) = t.
Proof. unfold BDB.tree_of, BDB.set_tree. simpl. now rewrite lookup_insert_eq. Qed.

Lemma BSDTable_put_eq (t : BSDTable) (e : BDB.Env) (k v : string) :
  BDB.db_closed (db t) = false ->
  BSDTable_put (VStr k) (VStr v) (t, e) =
    (Ok tt, (t, BDB.set_tree (db t)
                  (BDB.insert (encode k) (encode v) (BDB.tree_of (db t) e)) e)).
Proof.
  intros Ho. unfold BSDTable_put, value_encode, self, engine, bind, gets, ret, BDB.put.
  simpl. now rewrite Ho.
Qed.

Lemma BSDTable_get_eq (t : BSDTable) (e : BDB.Env) (k : string) :
  BDB.db_closed (db t) = false ->
  BSDTable_get (VStr k) (t, e) =
    (match BDB.lookup (encode k) (BDB.tree_of (db t) e) with
     | Some b => Ok (VStr (decode b))
     | None => Raise AttributeError
     end, (t, e)).
Proof.
  intros Ho.
  unfold BSDTable_get, value_encode, value_decode, self, engine, bind, gets, ret,
    raise, BDB.get.
  simpl. rewrite Ho. now destruct (BDB.lookup (encode k) (BDB.tree_of (db t) e)).
Qed.

Lemma Table_delete_eq (t : BSDTable) (e : BDB.Env) (k : bytes) :
  BDB.db_closed (db t) = false ->
  Table_delete (VBytes k) (t, e) =
    match BDB.lookup k (BDB.tree_of (db t) e) with
    | Some _ => (Ok tt, (t, BDB.set_tree (db t) (BDB.remove k (BDB.tree_of (db t) e)) e))
    | None => (Raise DBNotFoundError, (t, e))
    end.
Proof.
  intros Ho. unfold Table_delete, self, engine, bind, gets, BDB.delete.
  simpl. rewrite Ho. now destruct (BDB.lookup k (BDB.tree_of (db t) e)).
Qed.

(** The facade after [assert_exist]: the table is registered with an open
    handle, and its tree is what the environment held for it. *)
Lemma Berkeley_assert_exist_cases (name : string) (d : Berkeley) :
  BDB.env_closed (env (backend d)) = false ->
  (forall t, tables d !! name = Some t -> BDB.db_closed (db t) = false) ->
  (exists x, tables d !! name = None /\ assert_exist name d = (Raise x, d)) \/
  (exists d1 t,
    assert_exist name d = (Ok tt, d1) /\
    tables d1 !! name = Some t /\
    BDB.db_closed (db t) = false /\
    BDB.tree_of (db t) (env (backend d1)) = BDB.tree_of (db t) (env (backend d))).
Proof.
  intros Ho Hh. destruct (tables d !! name) as [t|] eqn:E.
  - right. exists d, t. split; [apply assert_exist_known; eauto|]. auto.
  - rewrite (assert_exist_unknown name d E).
    change (backend_open name d) with (Berkeley_open name d).
    destruct (Berkeley_open_cases name d Ho) as [[x ->]|[f ->]]; [left; eauto|right].
    eexists. eexists.
    split; [reflexivity|]. simpl. rewrite lookup_insert_eq.
    split; [reflexivity|]. split; [reflexivity|]. apply with_file_tree.
Qed.


Lemma Berkeley_on_table (name : string) {A} (method : M (BSDTable * BDB.Env) A)
    (d : Berkeley) (t : BSDTable) :
  tables d !! name = Some t ->
  on_table name (in_env method) d =
    (fst (method (t, env (backend d))),
     mkData (<[name := fst (snd (method (t, env (backend d))))]> (tables d))
            (mkBerkeley (snd (snd (method (t, env (backend d))))) (attrs (backend d)))).
Proof.
  intros Ht. rewrite (on_table_known name _ d t Ht). unfold in_env. simpl.
  now destruct (method (t, env (backend d))) as [r [t' e']].
Qed.


(** [get] on the ordered backend, on a facade that holds the table. *)
Lemma Berkeley_get_eq (name k : string) (d : Berkeley) (t : BSDTable) :
  tables d !! name = Some t ->
  BDB.db_closed (db t) = false ->
  fst (Data_get name (VStr k) d) =
    match BDB.lookup (encode k) (BDB.tree_of (db t) (env (backend d))) with
    | Some b => Ok (VStr (decode b))
    | None => Raise AttributeError
    end.
Proof.
  intros Ht Hc. unfold Data_get. unfold bind at 1.
  rewrite (assert_exist_known name d) by eauto.
  unfold bind.
  change (table_get (VStr k)) with (in_env (BSDTable_get (VStr k))).
  rewrite (Berkeley_on_table name _ d t Ht).
  rewrite (BSDTable_get_eq t _ k Hc). simpl.
  now destruct (BDB.lookup (encode k) (BDB.tree_of (db t) (env (backend d)))).
Qed.



Lemma env_sorted_tree (h : BDB.DB) (e : BDB.Env) :
  env_sorted e = true -> BDB.sorted (BDB.tree_of h e) = true.
Proof.
  intros H. unfold BDB.tree_of.
  destruct (BDB.files e !! BDB.db_file h) as [t|] eqn:E; [|reflexivity].
  unfold env_sorted in H. rewrite forallb_forall in H.
  apply (H (BDB.db_file h, t)). apply list_elem_of_In. now apply elem_of_map_to_list.
Qed.

Section AfterAssertExist.
Context {T B : Type} `{!Backend T B}.

(** Once [assert_exist] has opened the table, the call goes on as on a
    facade that held it from the start. *)
Lemma Data_put_opened (name : string) (key data : value) (d d1 : Data T B) :
  assert_exist name d = (Ok tt, d1) ->
  is_Some (tables d1 !! name) ->
  Data_put name key data d = Data_put name key data d1.
Proof.
  intros Ha Hs. unfold Data_put, bind. rewrite Ha.
  now rewrite (assert_exist_known name d1 Hs).
Qed.

Lemma Data_get_opened (name : string) (key : value) (d d1 : Data T B) :
  assert_exist name d = (Ok tt, d1) ->
  is_Some (tables d1 !! name) ->
  Data_get name key d = Data_get name key d1.
Proof.
  intros Ha Hs. unfold Data_get. unfold bind at 1 3. rewrite Ha.
  now rewrite (assert_exist_known name d1 Hs).
Qed.

Lemma Data_delete_opened (name : string) (key : value) (d d1 : Data T B) :
  assert_exist name d = (Ok tt, d1) ->
  is_Some (tables d1 !! name) ->
  Data_delete name key d = Data_delete name key d1.
Proof.
  intros Ha Hs. unfold Data_delete, bind. rewrite Ha.
  now rewrite (assert_exist_known name d1 Hs).
Qed.

(** When [assert_exist] could not open the table, the call ends there. *)
Lemma Data_put_refused (name : string) (key data : value) (d d1 : Data T B) (e : exn) :
  assert_exist name d = (Raise e, d1) ->
  Data_put name key data d = (Raise e, d1).
Proof. intros Ha. unfold Data_put, bind. now rewrite Ha. Qed.

Lemma Data_get_refused (name : string) (key : value) (d d1 : Data T B) (e : exn) :
  assert_exist name d = (Raise e, d1) ->
  Data_get name key d = (Raise e, d1).
Proof. intros Ha. unfold Data_get, bind. now rewrite Ha. Qed.

Lemma Data_delete_refused (name : string) (key : value) (d d1 : Data T B) (e : exn) :
  assert_exist name d = (Raise e, d1) ->
  Data_delete name key d = (Raise e, d1).
Proof. intros Ha. unfold Data_delete, bind. now rewrite Ha. Qed.

Lemma Data_put_unmodelled (name : string) (key data : value) (d d1 : Data T B) :
  assert_exist name d = (Unmodelled, d1) ->
  Data_put name key data d = (Unmodelled, d1).
Proof. intros Ha. unfold Data_put, bind. now rewrite Ha. Qed.

Lemma Data_get_unmodelled (name : string) (key : value) (d d1 : Data T B) :
  assert_exist name d = (Unmodelled, d1) ->
  Data_get name key d = (Unmodelled, d1).
Proof. intros Ha. unfold Data_get, bind. now rewrite Ha. Qed.

End AfterAssertExist.

Lemma Berkeley_put_known (name k v : string) (d : Berkeley) (t : BSDTable) :
  tables d !! name = Some t ->
  BDB.db_closed (db t) = false ->
  Data_put name (VStr k) (VStr v) d =
    (Ok tt,
     mkData (<[name := t]> (tables d))
       (mkBerkeley
          (BDB.set_tree (db t)
             (BDB.insert (encode k) (encode v) (BDB.tree_of (db t) (env (backend d))))
             (env (backend d)))
          (attrs (backend d)))).
Proof.
  intros Ht Hc. unfold Data_put, bind.
  rewrite (assert_exist_known name d) by eauto.
  change (table_put (VStr k) (VStr v)) with (in_env (BSDTable_put (VStr k) (VStr v))).
  rewrite (Berkeley_on_table name _ d t Ht).
  now rewrite (BSDTable_put_eq t _ k v Hc).
Qed.




(** ** The relational backend, operation by operation *)

Lemma execute_SELECT_value (c : SQL.Connection) (n k : string) (rows : SQL.relation) :
  SQL.closed c = false ->
  SQL.relations c !! n = Some rows ->
  SQL.execute (SQL.SELECT_value_WHERE n k) c =
    (Ok tt, SQL.set_result (map (fun v => [VStr v]) (values_of k rows)) c).
Proof.
  intros Hopen Hrel. unfold SQL.execute, SQL.run, values_of.
  rewrite Hopen, Hrel. now rewrite map_map.
Qed.

Lemma SQLTable_get_eq (t : SQLTable) (c : SQL.Connection) (rows : SQL.relation) (k : string) :
  SQL.closed c = false ->
  SQL.relations c !! name t = Some rows ->
  SQLTable_get (VStr k) (t, c) =
    (Ok (match values_of k rows with [] => VNone | v :: _ => VStr v end),
     (t, SQL.set_result (map (fun v => [VStr v]) (tail (values_of k rows))) c)).
Proof.
  intros Hopen Hrel. unfold SQLTable_get, self, engine, bind, gets, ret.
  simpl. rewrite (execute_SELECT_value c (name t) k rows Hopen Hrel). simpl.
  destruct (values_of k rows) as [|v vs]; simpl.
  - now rewrite (fetchone_nil c Hopen).
  - now rewrite (fetchone_cons c _ _ Hopen).
Qed.

Lemma truthy_first_value (k : string) (rows : SQL.relation) :
  negb (truthy (match values_of k rows with [] => VNone | v :: _ => VStr v end)) =
  match values_of k rows with [] => true | v0 :: _ => String.eqb v0 "" end.
Proof.
  destruct (values_of k rows) as [|v0 vs]; [reflexivity|]. simpl.
  now destruct (String.eqb v0 "").
Qed.

(** [SQLTable.put], as one step on the rows of the relation. *)
Lemma SQLTable_put_eq (t : SQLTable) (c : SQL.Connection) (rows : SQL.relation)
    (k v : string) :
  SQL.closed c = false ->
  SQL.relations c !! name t = Some rows ->
  SQLTable_put (VStr k) (VStr v) [] (t, c) =
    (Ok tt,
     (t, SQL.mkConnection (<[name t := put_rows k v rows]> (SQL.relations c))
                          (<[name t := put_rows k v rows]> (SQL.relations c))
                          [] (SQL.closed c))).
Proof.
  intros Hopen Hrel. unfold SQLTable_put. cbn [str]. unfold bind at 1.
  rewrite (SQLTable_get_eq t c rows k Hopen Hrel).
  rewrite truthy_first_value. unfold put_rows.
  set (c1 := SQL.set_result _ c).
  assert (Hopen1 : SQL.closed c1 = false) by exact Hopen.
  assert (Hrel1 : SQL.relations c1 !! name t = Some rows) by exact Hrel.
  assert (Hins : SQLTable_sql_statement "INSERT" k v [] (t, c1) =
                 (Ok tt, (t, SQL.mkConnection (<[name t := rows ++ [(k, v)]]> (SQL.relations c))
                                  (<[name t := rows ++ [(k, v)]]> (SQL.relations c))
                                  [] (SQL.closed c)))).
  { unfold SQLTable_sql_statement, self, engine, bind, gets, ret, for_each,
      SQL.execute, SQL.commit, SQL.run.
    simpl. rewrite Hopen. simpl. rewrite Hrel. simpl. rewrite Hopen. reflexivity. }
  assert (Hupd : SQLTable_sql_statement "UPDATE" k v [] (t, c1) =
                 (Ok tt, (t, SQL.mkConnection
                    (<[name t := map (fun kv => if SQL.key_is k kv then (k, v) else kv) rows]>
                       (SQL.relations c))
                    (<[name t := map (fun kv => if SQL.key_is k kv then (k, v) else kv) rows]>
                       (SQL.relations c))
                    [] (SQL.closed c)))).
  { unfold SQLTable_sql_statement, self, engine, bind, gets, ret, for_each,
      SQL.execute, SQL.commit, SQL.run.
    simpl. rewrite Hopen. simpl. rewrite Hrel. simpl. rewrite Hopen. reflexivity. }
  destruct (values_of k rows) as [|v0 vs]; [exact Hins|].
  destruct (String.eqb v0 ""); [exact Hins|exact Hupd].
Qed.

Lemma SQLTable_delete_eq (t : SQLTable) (c : SQL.Connection) (rows : SQL.relation)
    (key : value) :
  SQL.closed c = false ->
  SQL.relations c !! name t = Some rows ->
  SQLTable_delete key (t, c) =
    (Ok tt,
     (t, SQL.set_relation (name t)
           (List.filter (fun kv => negb (SQL.key_is (str key) kv)) rows) c)).
Proof.
  intros Hopen Hrel. unfold SQLTable_delete, self, engine, bind, gets, SQL.execute, SQL.run.
  simpl. now rewrite Hopen, Hrel.
Qed.

Lemma values_of_app (k : string) (r1 r2 : SQL.relation) :
  values_of k (r1 ++ r2) = values_of k r1 ++ values_of k r2.
Proof. unfold values_of. now rewrite List.filter_app, map_app. Qed.

Lemma values_of_update (k v : string) (rows : SQL.relation) :
  values_of k (map (fun kv => if SQL.key_is k kv then (k, v) else kv) rows) =
  map (fun _ => v) (values_of k rows).
Proof.
  unfold values_of, SQL.key_is. induction rows as [|[k1 v1] rows IH]; [reflexivity|].
  simpl. destruct (String.eqb k1 k) eqn:E; simpl.
  - rewrite String.eqb_refl. simpl. now rewrite IH.
  - rewrite E. exact IH.
Qed.

(** Where [put] then [get] agree on the relational backend: whenever the
    value that the key held first, if any, is not the empty string. *)
Lemma values_of_put_rows (k v : string) (rows : SQL.relation) :
  head (values_of k rows) <> Some "" ->
  head (values_of k (put_rows k v rows)) = Some v.
Proof.
  intros Hne. unfold put_rows. destruct (values_of k rows) as [|v0 vs] eqn:E.
  - rewrite values_of_app, E. unfold values_of, SQL.key_is. simpl.
    now rewrite String.eqb_refl.
  - destruct (String.eqb v0 "") eqn:E0.
    + apply String.eqb_eq in E0. subst v0. now contradiction Hne.
    + now rewrite values_of_update, E.
Qed.

(** A DELETE of another key leaves the values of this one. *)
Lemma values_of_delete_other (k k' : string) (rows : SQL.relation) :
  k' <> k ->
  values_of k (List.filter (fun kv => negb (SQL.key_is k' kv)) rows) = values_of k rows.
Proof.
  intros Hne. unfold values_of, SQL.key_is. f_equal.
  induction rows as [|[k1 v1] rows IH]; [reflexivity|].
  simpl. destruct (String.eqb k1 k') eqn:E'; simpl.
  - apply String.eqb_eq in E'. subst k1.
    destruct (String.eqb k' k) eqn:E; [apply String.eqb_eq in E; contradiction|exact IH].
  - destruct (String.eqb k1 k); [now rewrite IH|exact IH].
Qed.

Lemma with_relation_rows (n : string) (c : SQL.Connection) :
  SQL.relations (with_relation n c) !! n = Some (default [] (SQL.relations c !! n)).
Proof.
  unfold with_relation. destruct (SQL.relations c !! n) as [r|] eqn:Er; simpl.
  - exact Er.
  - apply lookup_insert_eq.
Qed.

(** The facade after [assert_exist]: either the table is registered under
    its own name, and its relation holds the rows that the database held
    for it, or the table was unknown and could not be opened; then the call
    ended in the CREATE TABLE and registered nothing. *)
Lemma SQLite_assert_exist_cases (n : string) (d : SQLite) :
  SQL.closed (backend d) = false ->
  (forall t, tables d !! n = Some t ->
             name t = n /\ is_Some (SQL.relations (backend d) !! n)) ->
  (exists d1 t,
    assert_exist n d = (Ok tt, d1) /\
    tables d1 !! n = Some t /\
    name t = n /\
    SQL.closed (backend d1) = false /\
    SQL.relations (backend d1) !! n = Some (SQLite_rows n d)) \/
  (tables d !! n = None /\
   (assert_exist n d =
      (Raise OperationalError, mkData (tables d) (SQL.set_result [] (backend d))) \/
    assert_exist n d =
      (Unmodelled, mkData (tables d) (SQL.set_result [] (backend d))))).
Proof.
  intros Ho Hh. unfold SQLite_rows. destruct (tables d !! n) as [t|] eqn:E.
  - left. destruct (Hh t eq_refl) as [Hn [r Hr]]. exists d, t.
    split; [apply assert_exist_known; eauto|]. rewrite Hr. auto.
  - rewrite (assert_exist_unknown n d E).
    change (backend_open n d) with (SQLite_open n d).
    rewrite (SQLite_open_cases n d Ho).
    assert (Hok : exists d1 t,
              (Ok tt, mkData (<[n := SQLTable_init n]> (tables d))
                             (with_relation n (backend d))) = (Ok tt, d1) /\
              tables d1 !! n = Some t /\ name t = n /\
              SQL.closed (backend d1) = false /\
              SQL.relations (backend d1) !! n =
                Some (default [] (SQL.relations (backend d) !! n))).
    { eexists. eexists. split; [reflexivity|]. cbn [tables backend].
      rewrite lookup_insert_eq. split; [reflexivity|]. split; [reflexivity|].
      rewrite with_relation_closed. split; [exact Ho|]. apply with_relation_rows. }
    destruct (SQL.relations (backend d) !! n) as [r|] eqn:Er; [left; exact Hok|].
    destruct (SQL.identifier n); [|destruct (SQL.two_words n); right; auto].
    destruct (SQL.clash n (backend d)); [right; auto|left; exact Hok].
Qed.

Lemma SQLite_assert_exist_open (n : string) (d : SQLite) :
  SQL.closed (backend d) = false ->
  (forall t, tables d !! n = Some t ->
             name t = n /\ is_Some (SQL.relations (backend d) !! n)) ->
  SQL.identifier n = true ->
  SQL.clash n (backend d) = false ->
  exists d1 t,
    assert_exist n d = (Ok tt, d1) /\
    tables d1 !! n = Some t /\
    name t = n /\
    SQL.closed (backend d1) = false /\
    SQL.relations (backend d1) !! n = Some (SQLite_rows n d).
Proof.
  intros Ho Hh Hi Hc. unfold SQLite_rows. destruct (tables d !! n) as [t|] eqn:E.
  - destruct (Hh t eq_refl) as [Hn [r Hr]]. exists d, t.
    split; [apply assert_exist_known; eauto|]. rewrite Hr. auto.
  - rewrite (assert_exist_unknown n d E).
    change (backend_open n d) with (SQLite_open n d).
    rewrite (SQLite_open_ok n d Ho Hi Hc). eexists. eexists.
    split; [reflexivity|]. cbn [tables backend]. rewrite lookup_insert_eq.
    split; [reflexivity|]. split; [reflexivity|].
    rewrite with_relation_closed. split; [exact Ho|]. apply with_relation_rows.
Qed.

(** What the cursor has to fetch makes no difference to [assert_exist]. *)
Lemma SQLite_assert_exist_fetched (n : string) (d : SQLite) (rs : list SQL.row) :
  SQL.closed (backend d) = false ->
  tables d !! n = None ->
  assert_exist n (mkData (tables d) (SQL.set_result rs (backend d))) = assert_exist n d.
Proof.
  intros Ho E.
  rewrite (assert_exist_unknown n d E).
  rewrite (assert_exist_unknown n (mkData (tables d) (SQL.set_result rs (backend d))) E).
  change (backend_open n) with (SQLite_open n).
  rewrite (SQLite_open_cases n d Ho).
  rewrite (SQLite_open_cases n (mkData (tables d) (SQL.set_result rs (backend d))) Ho).
  reflexivity.
Qed.

Lemma SQLite_get_known (n k : string) (d : SQLite) (t : SQLTable) (rows : SQL.relation) :
  tables d !! n = Some t ->
  name t = n ->
  SQL.closed (backend d) = false ->
  SQL.relations (backend d) !! n = Some rows ->
  fst (Data_get n (VStr k) d) =
    Ok (match values_of k rows with [] => VNone | v :: _ => VStr v end).
Proof.
  intros Ht Hn Ho Hr. unfold Data_get. unfold bind at 1.
  rewrite (assert_exist_known n d) by eauto.
  unfold bind. rewrite (on_table_known n _ d t Ht).
  change (table_get (VStr k)) with (SQLTable_get (VStr k)).
  rewrite <- Hn in Hr. now rewrite (SQLTable_get_eq t _ rows k Ho Hr).
Qed.

Lemma SQLite_put_known (n k v : string) (d : SQLite) (t : SQLTable) (rows : SQL.relation) :
  tables d !! n = Some t ->
  name t = n ->
  SQL.closed (backend d) = false ->
  SQL.relations (backend d) !! n = Some rows ->
  Data_put n (VStr k) (VStr v) d =
    (Ok tt,
     mkData (<[n := t]> (tables d))
       (SQL.mkConnection (<[n := put_rows k v rows]> (SQL.relations (backend d)))
                         (<[n := put_rows k v rows]> (SQL.relations (backend d)))
                         [] (SQL.closed (backend d)))).
Proof.
  intros Ht Hn Ho Hr. unfold Data_put, bind.
  rewrite (assert_exist_known n d) by eauto.
  rewrite (on_table_known n _ d t Ht).
  change (table_put (VStr k) (VStr v)) with (SQLTable_put (VStr k) (VStr v) []).
  rewrite <- Hn in Hr. rewrite (SQLTable_put_eq t _ rows k v Ho Hr). simpl.
  now rewrite Hn.
Qed.

Lemma SQLite_delete_known (n : string) (key : value) (d : SQLite) (t : SQLTable)
    (rows : SQL.relation) :
  tables d !! n = Some t ->
  name t = n ->
  SQL.closed (backend d) = false ->
  SQL.relations (backend d) !! n = Some rows ->
  Data_delete n key d =
    (Ok tt,
     mkData (<[n := t]> (tables d))
       (SQL.set_relation n
          (List.filter (fun kv => negb (SQL.key_is (str_of_bytes (encode (str key))) kv)) rows)
          (backend d))).
Proof.
  intros Ht Hn Ho Hr. unfold Data_delete, bind.
  rewrite (assert_exist_known n d) by eauto.
  rewrite (on_table_known n _ d t Ht).
  change (table_delete (VBytes (encode (str key))))
    with (SQLTable_delete (VBytes (encode (str key)))).
  rewrite <- Hn in Hr. rewrite (SQLTable_delete_eq t _ rows _ Ho Hr). simpl.
  now rewrite Hn.
Qed.

(** X3. On the relational backend [get] on a key that no row holds
    returns [None], for a table whose name is an identifier that no stored
    table name clashes with. *)
Theorem SQLite_get_missing_key (n k : string) (d : SQLite) :
  SQL.closed (backend d) = false ->
  (forall t, tables d !! n = Some t ->
             name t = n /\ is_Some (SQL.relations (backend d) !! n)) ->
  SQL.identifier n = true ->
  SQL.clash n (backend d) = false ->
  values_of k (SQLite_rows n d) = [] ->
  fst (Data_get n (VStr k) d) = Ok VNone.
Proof.
  intros Ho Hh Hi Hc Hv.
  destruct (SQLite_assert_exist_open n d Ho Hh Hi Hc) as [d1 [t [Ha [Ht [Hn [Ho1 Hr1]]]]]].
  rewrite (Data_get_opened n _ d d1 Ha) by eauto.
  rewrite (SQLite_get_known n k d1 t _ Ht Hn Ho1 Hr1). now rewrite Hv.
Qed.

Lemma SQLite_get_missing_key_witness :
  fst (Data_get "games" (VStr "game3") sqlite_games) = Ok VNone.
Proof.
  apply (SQLite_get_missing_key "games" "game3" sqlite_games).
  - reflexivity.
  - intros t Ht. vm_compute in Ht. injection Ht as <-. split; [reflexivity|].
    vm_compute. eauto.
  - reflexivity.
  - reflexivity.
  - reflexivity.
Defined.

(** X4. On the relational backend [put] followed by [get] returns the value
    put, provided the first value that the key held, if any, was not the
    empty string, for a table whose name is an identifier that no stored
    table name clashes with. *)
Theorem SQLite_put_then_get (n k v : string) (d : SQLite) :
  SQL.closed (backend d) = false ->
  (forall t, tables d !! n = Some t ->
             name t = n /\ is_Some (SQL.relations (backend d) !! n)) ->
  SQL.identifier n = true ->
  SQL.clash n (backend d) = false ->
  head (values_of k (SQLite_rows n d)) <> Some "" ->
  fst (Data_put n (VStr k) (VStr v) d) = Ok tt /\
  fst (Data_get n (VStr k) (after (Data_put n (VStr k) (VStr v)) d)) = Ok (VStr v).
Proof.
  intros Ho Hh Hi Hc Hv.
  destruct (SQLite_assert_exist_open n d Ho Hh Hi Hc) as [d1 [t [Ha [Ht [Hn [Ho1 Hr1]]]]]].
  unfold after. rewrite (Data_put_opened n _ _ d d1 Ha) by eauto.
  rewrite (SQLite_put_known n k v d1 t _ Ht Hn Ho1 Hr1).
  split; [reflexivity|]. simpl.
  rewrite (SQLite_get_known n k _ t (put_rows k v (SQLite_rows n d)));
    [|apply lookup_insert_eq|exact Hn|exact Ho1|apply lookup_insert_eq].
  pose proof (values_of_put_rows k v (SQLite_rows n d) Hv) as Hhead.
  destruct (values_of k (put_rows k v (SQLite_rows n d))); [discriminate|].
  simpl in Hhead. congruence.
Qed.

Lemma SQLite_put_then_get_witness :
  fst (Data_put "games" (VStr "game1") (VStr "italy") sqlite_games) = Ok tt /\
  fst (Data_get "games" (VStr "game1")
         (after (Data_put "games" (VStr "game1") (VStr "italy")) sqlite_games))
    = Ok (VStr "italy").
Proof.
  apply (SQLite_put_then_get "games" "game1" "italy" sqlite_games).
  - reflexivity.
  - intros t Ht. vm_compute in Ht. injection Ht as <-. split; [reflexivity|].
    vm_compute. eauto.
  - reflexivity.
  - reflexivity.
  - vm_compute. discriminate.
Defined.

(** X27. On the relational backend [delete] through the facade changes
    nothing that [get] of the same key returns: the DELETE names the text of
    the bytes of the key, never the key.  The name of the table is an
    identifier that no stored table name clashes with. *)
Theorem SQLite_delete_keeps_key (n k : string) (d : SQLite) :
  SQL.closed (backend d) = false ->
  (forall t, tables d !! n = Some t ->
             name t = n /\ is_Some (SQL.relations (backend d) !! n)) ->
  SQL.identifier n = true ->
  SQL.clash n (backend d) = false ->
  fst (Data_delete n (VStr k) d) = Ok tt /\
  fst (Data_get n (VStr k) (after (Data_delete n (VStr k)) d)) =
  fst (Data_get n (VStr k) d).
Proof.
  intros Ho Hh Hi Hc.
  destruct (SQLite_assert_exist_open n d Ho Hh Hi Hc) as [d1 [t [Ha [Ht [Hn [Ho1 Hr1]]]]]].
  unfold after. rewrite (Data_delete_opened n _ d d1 Ha) by eauto.
  rewrite (Data_get_opened n _ d d1 Ha) by eauto.
  rewrite (SQLite_delete_known n (VStr k) d1 t _ Ht Hn Ho1 Hr1).
  split; [reflexivity|]. simpl.
  rewrite (SQLite_get_known n k d1 t _ Ht Hn Ho1 Hr1).
  rewrite (SQLite_get_known n k _ t
             (List.filter (fun kv => negb (SQL.key_is (str_of_bytes (encode k)) kv))
                (SQLite_rows n d)));
    [|apply lookup_insert_eq|exact Hn|exact Ho1|apply lookup_insert_eq].
  now rewrite (values_of_delete_other k _ _ (str_of_bytes_neq k)).
Qed.

Lemma SQLite_delete_keeps_key_witness :
  fst (Data_delete "games" (VStr "game1") sqlite_games) = Ok tt /\
  fst (Data_get "games" (VStr "game1") (after (Data_delete "games" (VStr "game1")) sqlite_games)) =
  fst (Data_get "games" (VStr "game1") sqlite_games).
Proof.
  apply (SQLite_delete_keeps_key "games" "game1" sqlite_games).
  - reflexivity.
  - intros t Ht. vm_compute in Ht. injection Ht as <-. split; [reflexivity|].
    vm_compute. eauto.
  - reflexivity.
  - reflexivity.
Defined.

(** X5. On the relational backend leaving the scope commits and then closes,
    whatever the body did and however it ended, as long as the body left
    the connection open. *)
Theorem SQLite_exit_commits_and_closes {A} (body : M SQLite A) (d d1 : SQLite) (r : result A) :
  body d = (r, d1) ->
  SQL.closed (backend d1) = false ->
  with_ body SQLite_exit d =
    (r, mkData (tables d1)
          (SQL.mkConnection (SQL.relations (backend d1)) (SQL.relations (backend d1)) [] true)).
Proof.
  intros Hb Ho. unfold with_. rewrite Hb.
  unfold SQLite_exit, SQLite_db, bind, SQL.commit, SQL.close. simpl.
  rewrite Ho. reflexivity.
Qed.

Lemma SQLite_exit_commits_and_closes_witness :
  with_ (Data_delete "games" (VStr "game1") ;;; Data_verify "games") SQLite_exit sqlite_games =
    (Raise AttributeError,
     mkData (tables sqlite_games)
       (SQL.mkConnection (SQL.relations (backend sqlite_games))
          (SQL.relations (backend sqlite_games)) [] true)).
Proof.
  apply (SQLite_exit_commits_and_closes
           (Data_delete "games" (VStr "game1") ;;; Data_verify "games")
           sqlite_games sqlite_games (Raise AttributeError)); reflexivity.
Defined.

(** X6. On the ordered backend [delete] through the facade removes a key
    that the tree holds. *)
Theorem Berkeley_delete_removes_key (n k : string) (d : Berkeley) (t : BSDTable) :
  tables d !! n = Some t ->
  BDB.db_closed (db t) = false ->
  env_sorted (env (backend d)) = true ->
  is_Some (BDB.lookup (encode k) (Berkeley_tree n d)) ->
  fst (Data_delete n (VStr k) d) = Ok tt /\
  BDB.lookup (encode k) (Berkeley_tree n (after (Data_delete n (VStr k)) d)) = None.
Proof.
  intros Ht Hc Hs [b Hb].
  assert (E : Data_delete n (VStr k) d =
              (Ok tt,
               mkData (<[n := t]> (tables d))
                 (mkBerkeley
                    (BDB.set_tree (db t)
                       (BDB.remove (encode k) (BDB.tree_of (db t) (env (backend d))))
                       (env (backend d)))
                    (attrs (backend d))))).
  { unfold Data_delete, bind. rewrite (assert_exist_known n d) by eauto.
    change (table_delete (VBytes (encode (str (VStr k)))))
      with (in_env (Table_delete (VBytes (encode k)))).
    rewrite (Berkeley_on_table n _ d t Ht).
    rewrite (Table_delete_eq t _ (encode k) Hc).
    unfold Berkeley_tree in Hb. rewrite Ht in Hb. now rewrite Hb. }
  unfold after. rewrite E. split; [reflexivity|].
  unfold Berkeley_tree. simpl. rewrite lookup_insert_eq, tree_of_set_tree.
  apply lookup_remove_same. now apply env_sorted_tree.
Qed.

Lemma Berkeley_delete_removes_key_witness :
  fst (Data_delete "games" (VStr "game1") berkeley_games) = Ok tt /\
  BDB.lookup (encode "game1")
    (Berkeley_tree "games" (after (Data_delete "games" (VStr "game1")) berkeley_games)) = None.
Proof.
  apply (Berkeley_delete_removes_key "games" "game1" berkeley_games
           (BSDTable_init "games" (BDB.mkDB "games.db" false))).
  - reflexivity.
  - reflexivity.
  - reflexivity.
  - vm_compute. eauto.
Defined.

(** ** [removeEnv] *)

Lemma kind_of_other (n m : string) (f : OS.folder) :
  n <> m ->
  OS.kind_of m (List.filter (fun e => negb (String.eqb (fst e) n)) f) = OS.kind_of m f.
Proof.
  intros Hne. unfold OS.kind_of. f_equal.
  induction f as [|[a k] f IH]; [reflexivity|]. simpl.
  destruct (String.eqb a n) eqn:En; simpl.
  - apply String.eqb_eq in En. subst a.
    destruct (String.eqb n m) eqn:Em; [apply String.eqb_eq in Em; contradiction|exact IH].
  - destruct (String.eqb a m); [reflexivity|exact IH].
Qed.

Lemma kind_of_entry (e : string * OS.kind) (f : OS.folder) :
  NoDup (map fst f) -> In e f -> OS.kind_of (fst e) f = Some (snd e).
Proof.
  unfold OS.kind_of. induction f as [|[a k] f IH]; intros Hnd Hin; [contradiction|].
  simpl in *. apply NoDup_cons in Hnd. destruct Hnd as [Hnotin Hnd].
  destruct Hin as [<-|Hin].
  - simpl. now rewrite String.eqb_refl.
  - destruct (String.eqb a (fst e)) eqn:E.
    + apply String.eqb_eq in E. subst a. exfalso. apply Hnotin.
      apply list_elem_of_In. apply in_map. exact Hin.
    + now apply IH.
Qed.

Lemma filter_after_remove (n : string) (names : list string) (f : OS.folder) :
  reserved_prefix n = true ->
  List.filter (fun e => negb (reserved_prefix (fst e) && listed (fst e) names))
    (List.filter (fun e => negb (String.eqb (fst e) n)) f) =
  List.filter (fun e => negb (reserved_prefix (fst e) && listed (fst e) (n :: names))) f.
Proof.
  intros Er. induction f as [|[a k] f IH]; [reflexivity|]. simpl.
  destruct (String.eqb a n) eqn:Ea; simpl.
  - apply String.eqb_eq in Ea. subst a. rewrite Er. simpl. exact IH.
  - now rewrite IH.
Qed.

Lemma removeEnv_loop_files (names : list string) (f : OS.folder) :
  NoDup names ->
  (forall n, In n names -> reserved_prefix n = true -> OS.kind_of n f = Some OS.File) ->
  removeEnv_loop names f =
    (OS.Returned,
     List.filter (fun e => negb (reserved_prefix (fst e) && listed (fst e) names)) f).
Proof.
  revert f. induction names as [|n names IH]; intros f Hnd Hfile.
  - simpl. f_equal. induction f as [|e f IHf]; [reflexivity|].
    simpl. rewrite andb_false_r. simpl. now rewrite <- IHf.
  - apply NoDup_cons in Hnd. destruct Hnd as [Hnotin Hnd]. cbn [removeEnv_loop].
    destruct (reserved_prefix n) eqn:Er.
    + unfold OS.remove. rewrite (Hfile n (or_introl eq_refl) Er).
      rewrite IH; [|exact Hnd|].
      * now rewrite filter_after_remove.
      * intros m Hm Hrm. rewrite kind_of_other.
        -- apply Hfile; [now right|exact Hrm].
        -- intros ->. apply Hnotin. now apply list_elem_of_In.
    + rewrite IH; [|exact Hnd|intros m Hm; apply Hfile; now right].
      f_equal. apply filter_ext_in. intros [a k] _. simpl.
      destruct (String.eqb a n) eqn:Ea; [|reflexivity].
      apply String.eqb_eq in Ea. subst a. now rewrite Er.
Qed.

Lemma listed_In (n : string) (names : list string) : In n names -> listed n names = true.
Proof.
  intros H. unfold listed. apply existsb_exists. exists n. split; [exact H|].
  apply String.eqb_refl.
Qed.

(** X7. [removeEnv] on a folder in which every name that starts with two
    underscores is a file returns normally and leaves exactly the entries
    whose names do not start with two underscores, in their order. *)
Theorem removeEnv_removes_reserved_files (home_folder : OS.folder) :
  NoDup (map fst home_folder) ->
  (forall e, In e home_folder -> reserved_prefix (fst e) = true -> snd e = OS.File) ->
  removeEnv home_folder =
    (OS.Returned, List.filter (fun e => negb (reserved_prefix (fst e))) home_folder).
Proof.
  intros Hnd Hfiles. unfold removeEnv. rewrite removeEnv_loop_files.
  - f_equal. apply filter_ext_in. intros e He.
    rewrite (listed_In (fst e)); [now rewrite andb_true_r|]. now apply in_map.
  - exact Hnd.
  - intros n Hn Hr. apply in_map_iff in Hn. destruct Hn as [e [<- He]].
    rewrite (kind_of_entry e home_folder Hnd He). f_equal. now apply Hfiles.
Qed.

Lemma removeEnv_removes_reserved_files_witness :
  removeEnv [("__db.001", OS.File); ("games.db", OS.File); ("_log", OS.Directory);
             ("__db.002", OS.File)] =
    (OS.Returned, [("games.db", OS.File); ("_log", OS.Directory)]).
Proof.
  apply (removeEnv_removes_reserved_files
           [("__db.001", OS.File); ("games.db", OS.File); ("_log", OS.Directory);
            ("__db.002", OS.File)]).
  - apply (bool_decide_unpack _). vm_compute. reflexivity.
  - intros e He Hr. simpl in He.
    destruct He as [<-|[<-|[<-|[<-|[]]]]]; try reflexivity; discriminate.
Defined.

Lemma removeEnv_loop_keeps (names : list string) (f : OS.folder) (e : string * OS.kind) :
  In e f -> reserved_prefix (fst e) = false -> In e (snd (removeEnv_loop names f)).
Proof.
  revert f. induction names as [|n names IH]; intros f Hin Hr; [exact Hin|].
  cbn [removeEnv_loop]. destruct (reserved_prefix n) eqn:Er; [|now apply IH].
  unfold OS.remove. destruct (OS.kind_of n f) as [[|]|]; try exact Hin.
  apply IH; [|exact Hr]. apply filter_In. split; [exact Hin|].
  destruct (String.eqb (fst e) n) eqn:E; [|reflexivity].
  apply String.eqb_eq in E. congruence.
Qed.

(** X8. Whatever the folder holds and however it ends, [removeEnv] keeps
    every entry whose name does not start with two underscores. *)
Theorem removeEnv_keeps_other_entries (home_folder : OS.folder) (e : string * OS.kind) :
  In e home_folder ->
  reserved_prefix (fst e) = false ->
  In e (snd (removeEnv home_folder)).
Proof. intros Hin Hr. unfold removeEnv. now apply removeEnv_loop_keeps. Qed.

Lemma removeEnv_keeps_other_entries_witness :
  In ("games.db", OS.File)
     (snd (removeEnv [("__db.001", OS.File); ("__pycache__", OS.Directory);
                      ("games.db", OS.File)])).
Proof.
  apply (removeEnv_keeps_other_entries
           [("__db.001", OS.File); ("__pycache__", OS.Directory); ("games.db", OS.File)]
           ("games.db", OS.File)).
  - simpl. auto.
  - reflexivity.
Defined.

Lemma removeEnv_loop_directory (names : list string) (f : OS.folder) (n : string) :
  In n names ->
  reserved_prefix n = true ->
  OS.kind_of n f = Some OS.Directory ->
  fst (removeEnv_loop names f) <> OS.Returned.
Proof.
  revert f. induction names as [|m names IH]; intros f Hin Hr Hk; [contradiction|].
  cbn [removeEnv_loop].
  assert (Hrest : m <> n -> In n names) by (intros Hne; destruct Hin; congruence).
  destruct (reserved_prefix m) eqn:Erm.
  - unfold OS.remove. destruct (OS.kind_of m f) as [[|]|] eqn:Ekm; try discriminate.
    assert (Hne : m <> n) by congruence.
    apply IH; [now apply Hrest|exact Hr|]. now rewrite kind_of_other.
  - apply IH; [apply Hrest; congruence|exact Hr|exact Hk].
Qed.

(** X9. [removeEnv] raises [OSError] when the folder holds a directory
    whose name starts with two underscores. *)
Theorem removeEnv_raises_on_reserved_directory (home_folder : OS.folder) (n : string) :
  NoDup (map fst home_folder) ->
  In (n, OS.Directory) home_folder ->
  reserved_prefix n = true ->
  exists db_file, fst (removeEnv home_folder) = OS.OSError db_file.
Proof.
  intros Hnd Hin Hr.
  pose proof (removeEnv_loop_directory (map fst home_folder) home_folder n) as H.
  unfold removeEnv. destruct (fst (removeEnv_loop (map fst home_folder) home_folder)) eqn:E.
  - exfalso. apply H; try assumption; try reflexivity.
    + apply (in_map fst) in Hin. exact Hin.
    + apply (kind_of_entry (n, OS.Directory) home_folder Hnd Hin).
  - eauto.
Qed.

Lemma removeEnv_raises_on_reserved_directory_witness :
  exists db_file,
    fst (removeEnv [("__db.001", OS.File); ("__pycache__", OS.Directory);
                    ("games.db", OS.File)]) = OS.OSError db_file.
Proof.
  apply (removeEnv_raises_on_reserved_directory
           [("__db.001", OS.File); ("__pycache__", OS.Directory); ("games.db", OS.File)]
           "__pycache__").
  - apply (bool_decide_unpack _). vm_compute. reflexivity.
  - simpl. auto.
  - reflexivity.
Defined.

(** ** The ordered backend: missing keys, other keys, other values *)

Lemma insert_same_table (n : string) (d : Berkeley) (t : BSDTable) :
  tables d !! n = Some t -> mkData (<[n := t]> (tables d)) (backend d) = d.
Proof. intros Ht. destruct d as [tbs b]. simpl in *. now rewrite insert_id. Qed.

Lemma lookup_remove_other (k k' : bytes) (t : BDB.btree) :
  k <> k' -> BDB.lookup k' (BDB.remove k t) = BDB.lookup k' t.
Proof.
  intros Hne. induction t as [|[k1 v1] r IH]; [reflexivity|]. simpl.
  destruct (bytes_eqb k k1) eqn:E.
  - apply bytes_eqb_eq in E. subst k1.
    assert (Hk : bytes_eqb k' k = false) by (apply bytes_eqb_neq; congruence).
    now rewrite Hk.
  - simpl. now rewrite IH.
Qed.

Lemma Berkeley_delete_known (n k : string) (d : Berkeley) (t : BSDTable) :
  tables d !! n = Some t ->
  BDB.db_closed (db t) = false ->
  Data_delete n (VStr k) d =
    match BDB.lookup (encode k) (BDB.tree_of (db t) (env (backend d))) with
    | Some _ =>
        (Ok tt,
         mkData (<[n := t]> (tables d))
           (mkBerkeley
              (BDB.set_tree (db t)
                 (BDB.remove (encode k) (BDB.tree_of (db t) (env (backend d))))
                 (env (backend d)))
              (attrs (backend d))))
    | None => (Raise DBNotFoundError, d)
    end.
Proof.
  intros Ht Hc. unfold Data_delete, bind. rewrite (assert_exist_known n d) by eauto.
  change (table_delete (VBytes (encode (str (VStr k)))))
    with (in_env (Table_delete (VBytes (encode k)))).
  rewrite (Berkeley_on_table n _ d t Ht).
  rewrite (Table_delete_eq t _ (encode k) Hc).
  destruct (BDB.lookup (encode k) (BDB.tree_of (db t) (env (backend d)))); simpl.
  - reflexivity.
  - destruct d as [tbs [e a]]. simpl in *. now rewrite insert_id.
Qed.

Lemma Berkeley_get_state (n k : string) (d : Berkeley) (t : BSDTable) :
  tables d !! n = Some t ->
  BDB.db_closed (db t) = false ->
  after (Data_get n (VStr k)) d = d.
Proof.
  intros Ht Hc. unfold after, Data_get. unfold bind at 1.
  rewrite (assert_exist_known n d) by eauto. rewrite bind_ret_state.
  change (table_get (VStr k)) with (in_env (BSDTable_get (VStr k))).
  rewrite (Berkeley_on_table n _ d t Ht).
  rewrite (BSDTable_get_eq t _ k Hc). simpl.
  destruct d as [tbs [e a]]. simpl in *. now rewrite insert_id.
Qed.

(** X10. On the ordered backend, for a key that the tree of the table does
    not hold, [get] raises [AttributeError] and [delete] raises
    [DBNotFoundError]; both leave the facade as it was. *)
Theorem Berkeley_missing_key_raises (n k : string) (d : Berkeley) (t : BSDTable) :
  tables d !! n = Some t ->
  BDB.db_closed (db t) = false ->
  BDB.lookup (encode k) (Berkeley_tree n d) = None ->
  Data_delete n (VStr k) d = (Raise DBNotFoundError, d) /\
  fst (Data_get n (VStr k) d) = Raise AttributeError /\
  after (Data_get n (VStr k)) d = d.
Proof.
  intros Ht Hc Hk. unfold Berkeley_tree in Hk. rewrite Ht in Hk. split; [|split].
  - rewrite (Berkeley_delete_known n k d t Ht Hc). now rewrite Hk.
  - rewrite (Berkeley_get_eq n k d t Ht Hc). now rewrite Hk.
  - exact (Berkeley_get_state n k d t Ht Hc).
Qed.

Lemma Berkeley_missing_key_raises_witness :
  Data_delete "games" (VStr "game3") berkeley_games = (Raise DBNotFoundError, berkeley_games) /\
  fst (Data_get "games" (VStr "game3") berkeley_games) = Raise AttributeError /\
  after (Data_get "games" (VStr "game3")) berkeley_games = berkeley_games.
Proof.
  apply (Berkeley_missing_key_raises "games" "game3" berkeley_games
           (BSDTable_init "games" (BDB.mkDB "games.db" false))); reflexivity.
Defined.

(** X11. On the ordered backend [put] and [delete] of one key change
    nothing that [get] returns for another key of the table. *)
Theorem Berkeley_other_key_unchanged (n k k' v : string) (d : Berkeley) :
  BDB.env_closed (env (backend d)) = false ->
  (forall t, tables d !! n = Some t -> BDB.db_closed (db t) = false) ->
  k <> k' ->
  fst (Data_get n (VStr k') (after (Data_put n (VStr k) (VStr v)) d)) =
    fst (Data_get n (VStr k') d) /\
  fst (Data_get n (VStr k') (after (Data_delete n (VStr k)) d)) =
    fst (Data_get n (VStr k') d).
Proof.
  intros Ho Hh Hne.
  assert (Hk : encode k <> encode k') by (intros E; apply Hne; now apply encode_inj).
  destruct (Berkeley_assert_exist_cases n d Ho Hh)
    as [[x [_ Ha]]|[d0 [t [Ha [Ht [Hc _]]]]]].
  { unfold after. rewrite (Data_put_refused n _ _ d d x Ha).
    now rewrite (Data_delete_refused n _ d d x Ha). }
  unfold after. rewrite (Data_get_opened n _ d d0 Ha) by eauto.
  rewrite (Data_put_opened n _ _ d d0 Ha) by eauto.
  rewrite (Data_delete_opened n _ d d0 Ha) by eauto.
  rewrite (Berkeley_get_eq n k' d0 t Ht Hc). split.
  - rewrite (Berkeley_put_known n k v d0 t Ht Hc).
    rewrite (Berkeley_get_eq n k' _ t); [|apply lookup_insert_eq|exact Hc].
    simpl. rewrite tree_of_set_tree. now rewrite lookup_insert_other.
  - rewrite (Berkeley_delete_known n k d0 t Ht Hc).
    destruct (BDB.lookup (encode k) (BDB.tree_of (db t) (env (backend d0)))) eqn:E.
    + rewrite (Berkeley_get_eq n k' _ t); [|apply lookup_insert_eq|exact Hc].
      simpl. rewrite tree_of_set_tree. now rewrite lookup_remove_other.
    + simpl. now rewrite (Berkeley_get_eq n k' d0 t Ht Hc).
Qed.

Lemma Berkeley_other_key_unchanged_witness :
  fst (Data_get "games" (VStr "game2")
         (after (Data_put "games" (VStr "game1") (VStr "italy")) berkeley_games)) =
    fst (Data_get "games" (VStr "game2") berkeley_games) /\
  fst (Data_get "games" (VStr "game2")
         (after (Data_delete "games" (VStr "game1")) berkeley_games)) =
    fst (Data_get "games" (VStr "game2") berkeley_games).
Proof.
  apply (Berkeley_other_key_unchanged "games" "game1" "game2" "italy" berkeley_games).
  - reflexivity.
  - intros t Ht. vm_compute in Ht. injection Ht as <-. reflexivity.
  - discriminate.
Defined.

Lemma Berkeley_assert_exist_trees (n : string) (d : Berkeley) :
  BDB.env_closed (env (backend d)) = false ->
  (tables d !! n = None -> BDB.file_name (n +:+ ".db") = true) ->
  exists d1 t,
    assert_exist n d = (Ok tt, d1) /\
    tables d1 !! n = Some t /\
    forall h, BDB.tree_of h (env (backend d1)) = BDB.tree_of h (env (backend d)).
Proof.
  intros Ho Hf. destruct (tables d !! n) as [t|] eqn:E.
  - exists d, t. split; [apply assert_exist_known; eauto|]. auto.
  - rewrite (assert_exist_unknown n d E).
    change (backend_open n d) with (Berkeley_open n d).
    rewrite (Berkeley_open_ok n d Ho (Hf eq_refl)). eexists. eexists.
    split; [reflexivity|]. simpl. rewrite lookup_insert_eq.
    split; [reflexivity|]. intros h. apply with_file_tree.
Qed.

Lemma BSDTable_put_non_text (key data : value) (t : BSDTable) (e : BDB.Env) :
  is_text key && is_text data = false ->
  BSDTable_put key data (t, e) = (Raise AttributeError, (t, e)).
Proof.
  intros H. unfold BSDTable_put, value_encode, bind, raise, ret.
  destruct key; try reflexivity. destruct data; try reflexivity. discriminate.
Qed.

(** X12. On the ordered backend [put] with a key or a value that is not
    text (bytes, an integer, [None]) raises [AttributeError] and stores
    nothing, on a facade that holds the table or can open it
    ([name + '.db'] is a file name).  The facade is left as opening the
    table leaves it: as it was when the table was registered, and with the
    table registered over its new, empty file when it was not.  Every tree
    of the environment holds the pairs that it held. *)
Theorem Berkeley_put_rejects_non_text (n : string) (key data : value) (d : Berkeley) :
  BDB.env_closed (env (backend d)) = false ->
  (tables d !! n = None -> BDB.file_name (n +:+ ".db") = true) ->
  is_text key && is_text data = false ->
  fst (Data_put n key data d) = Raise AttributeError /\
  after (Data_put n key data) d = after (assert_exist n) d /\
  (is_Some (tables d !! n) -> after (Data_put n key data) d = d) /\
  (tables d !! n = None ->
   after (Data_put n key data) d =
     mkData (<[n := BSDTable_init n (BDB.mkDB (n +:+ ".db") false)]> (tables d))
            (mkBerkeley (with_file (n +:+ ".db") (env (backend d))) (attrs (backend d)))) /\
  forall h, BDB.tree_of h (env (backend (after (Data_put n key data) d))) =
            BDB.tree_of h (env (backend d)).
Proof.
  intros Ho Hf Hv.
  destruct (Berkeley_assert_exist_trees n d Ho Hf) as [d1 [t [Ha [Ht Htrees]]]].
  assert (E : Data_put n key data d = (Raise AttributeError, d1)).
  { unfold Data_put, bind. rewrite Ha.
    change (table_put key data) with (in_env (BSDTable_put key data)).
    rewrite (Berkeley_on_table n _ d1 t Ht).
    rewrite (BSDTable_put_non_text key data t _ Hv). cbn [fst snd].
    f_equal. destruct d1 as [tbs [e a]]. cbn in *. now rewrite insert_id. }
  unfold after. rewrite E, Ha. cbn [fst snd].
  split; [reflexivity|]. split; [reflexivity|]. split; [|split].
  - intros Hs. rewrite (assert_exist_known n d Hs) in Ha. congruence.
  - intros Hn. rewrite (assert_exist_unknown n d Hn) in Ha.
    change (backend_open n d) with (Berkeley_open n d) in Ha.
    rewrite (Berkeley_open_ok n d Ho (Hf Hn)) in Ha. congruence.
  - exact Htrees.
Qed.

Lemma Berkeley_put_rejects_non_text_witness :
  fst (Data_put "comps" (VInt 7) (VStr "germany") berkeley_games) = Raise AttributeError /\
  tables (after (Data_put "comps" (VInt 7) (VStr "germany")) berkeley_games) !! "comps" =
    Some (BSDTable_init "comps" (BDB.mkDB "comps.db" false)) /\
  BDB.files (env (backend (after (Data_put "comps" (VInt 7) (VStr "germany"))
                             berkeley_games))) !! "comps.db" = Some [] /\
  after (Data_put "games" (VInt 7) (VStr "germany")) berkeley_games = berkeley_games.
Proof.
  destruct (Berkeley_put_rejects_non_text "comps" (VInt 7) (VStr "germany") berkeley_games)
    as [H1 [_ [_ [H4 _]]]]; try reflexivity.
  destruct (Berkeley_put_rejects_non_text "games" (VInt 7) (VStr "germany") berkeley_games)
    as [_ [_ [H3 _]]]; try reflexivity.
  split; [exact H1|]. rewrite (H4 eq_refl).
  split; [reflexivity|]. split; [reflexivity|].
  apply H3. vm_compute. eauto.
Defined.

(** ** Iterations that are left before their end *)

Lemma take_next_Table_from n idx h e (mid pre suf : BDB.btree) c :
  BDB.db_closed h = false ->
  BDB.tree_of h e = pre ++ mid ++ suf ->
  BDB.sorted (pre ++ mid ++ suf) = true ->
  BDB.position c = position_after pre ->
  take_next (length mid) Table_next (mkTable n (Some c) idx h, e) =
    (Ok (map decode_pair mid),
     (mkTable n (Some (BDB.mkCursor (position_after (pre ++ mid)))) idx h, e)).
Proof.
  intros Hopen. revert pre c.
  induction mid as [|[k v] mid IH]; intros pre c Htree Hs Hpos.
  - simpl. rewrite app_nil_r. destruct c as [p]. simpl in Hpos. now subst p.
  - cbn [length take_next].
    rewrite (Table_next_yield n c idx h e k v Hopen).
    + rewrite (IH (pre ++ [(k, v)]) (BDB.mkCursor (Some k))).
      * simpl. now rewrite <- app_assoc.
      * now rewrite <- app_assoc.
      * now rewrite <- app_assoc.
      * unfold position_after. now rewrite last_snoc.
    + rewrite Hpos, Htree. now rewrite successor_split.
Qed.

(** X13. On the ordered backend an iteration that was left after [j] pairs
    is resumed, not restarted: the [j] calls of [__next__] return the first
    [j] pairs of the tree, and a later full scan yields only the pairs
    after them. *)
Theorem Table_iteration_resumes (t : BSDTable) (e : BDB.Env) (j fuel : nat) :
  cursor t = None ->
  BDB.db_closed (db t) = false ->
  BDB.sorted (BDB.tree_of (db t) e) = true ->
  j <= length (BDB.tree_of (db t) e) ->
  length (BDB.tree_of (db t) e) < fuel ->
  exists s,
    take_next j Table_next (t, e) =
      (Ok (take j (map decode_pair (BDB.tree_of (db t) e))), s) /\
    drain fuel Table_next s =
      Some (Ok (drop j (map decode_pair (BDB.tree_of (db t) e))), (t, e)).
Proof.
  destruct t as [n c idx h]. simpl. intros -> Hopen Hs Hj Hfuel.
  destruct j as [|j].
  - exists (mkTable n None idx h, e). split; [reflexivity|].
    rewrite drop_0. now apply (Table_scan (mkTable n None idx h) e fuel).
  - set (tree := BDB.tree_of h e) in *.
    assert (Hsplit : tree = [] ++ take (S j) tree ++ drop (S j) tree)
      by (simpl; now rewrite take_drop).
    assert (Hlen : length (take (S j) tree) = S j) by (rewrite length_take; lia).
    exists (mkTable n (Some (BDB.mkCursor (position_after (take (S j) tree)))) idx h, e).
    split.
    + cbn [take_next]. rewrite (Table_next_start n idx h e Hopen).
      change (take_next (S j) Table_next (mkTable n (Some (BDB.mkCursor None)) idx h, e) =
              (Ok (take (S j) (map decode_pair tree)),
               (mkTable n (Some (BDB.mkCursor (position_after (take (S j) tree)))) idx h, e))).
      rewrite <- Hlen at 1.
      rewrite (take_next_Table_from n idx h e (take (S j) tree) [] (drop (S j) tree)
                 (BDB.mkCursor None) Hopen Hsplit);
        [|now rewrite <- Hsplit|reflexivity].
      simpl app. now rewrite firstn_map.
    + rewrite skipn_map.
      apply (drain_Table_next_from n idx h e (drop (S j) tree) (take (S j) tree)).
      * exact Hopen.
      * now rewrite take_drop.
      * now rewrite take_drop.
      * reflexivity.
      * rewrite length_drop. lia.
Qed.

Lemma Table_iteration_resumes_witness :
  exists s,
    take_next 1 Table_next
      (BSDTable_init "games" (BDB.mkDB "games.db" false), env (backend berkeley_games)) =
      (Ok [("game1", "germany")], s) /\
    drain 3 Table_next s =
      Some (Ok [("game2", "usa")],
            (BSDTable_init "games" (BDB.mkDB "games.db" false), env (backend berkeley_games))).
Proof.
  apply (Table_iteration_resumes
           (BSDTable_init "games" (BDB.mkDB "games.db" false))
           (env (backend berkeley_games)) 1 3);
    try reflexivity; vm_compute; lia.
Defined.




(** ** The relational backend: other keys, repeated puts, [len] *)

Lemma values_of_none_filter (k : string) (rows : SQL.relation) :
  values_of k rows = [] -> List.filter (SQL.key_is k) rows = [].
Proof. unfold values_of. now destruct (List.filter (SQL.key_is k) rows). Qed.

Lemma update_no_row (k v : string) (rows : SQL.relation) :
  values_of k rows = [] ->
  map (fun kv => if SQL.key_is k kv then (k, v) else kv) rows = rows.
Proof.
  intros H. apply values_of_none_filter in H.
  induction rows as [|kv rows IH]; [reflexivity|]. simpl in *.
  destruct (SQL.key_is k kv); [discriminate|]. now rewrite IH.
Qed.

Lemma values_of_put_rows_other (k k' v : string) (rows : SQL.relation) :
  k <> k' -> values_of k' (put_rows k v rows) = values_of k' rows.
Proof.
  intros Hne.
  assert (Hupd : values_of k' (map (fun kv => if SQL.key_is k kv then (k, v) else kv) rows) =
                 values_of k' rows).
  { unfold values_of, SQL.key_is. f_equal.
    induction rows as [|[k1 v1] rows IH]; [reflexivity|]. simpl.
    destruct (String.eqb k1 k) eqn:E1; simpl.
    - apply String.eqb_eq in E1. subst k1.
      destruct (String.eqb k k') eqn:E; [apply String.eqb_eq in E; contradiction|exact IH].
    - destruct (String.eqb k1 k'); [now rewrite IH|exact IH]. }
  assert (Happ : values_of k' (rows ++ [(k, v)]) = values_of k' rows).
  { rewrite values_of_app. unfold values_of at 2, SQL.key_is. simpl.
    destruct (String.eqb k k') eqn:E; [apply String.eqb_eq in E; contradiction|].
    apply app_nil_r. }
  unfold put_rows. destruct (values_of k rows) as [|v0 vs]; [exact Happ|].
  destruct (String.eqb v0 ""); [exact Happ|exact Hupd].
Qed.

Lemma SQLite_rows_put (n k v : string) (d : SQLite) (t : SQLTable) (rows : SQL.relation) :
  tables d !! n = Some t ->
  name t = n ->
  SQL.closed (backend d) = false ->
  SQL.relations (backend d) !! n = Some rows ->
  SQLite_rows n (after (Data_put n (VStr k) (VStr v)) d) = put_rows k v rows.
Proof.
  intros Ht Hn Ho Hr. unfold after. rewrite (SQLite_put_known n k v d t rows Ht Hn Ho Hr).
  unfold SQLite_rows. simpl. now rewrite lookup_insert_eq.
Qed.

(** X15. On the relational backend [put] of one key changes nothing that
    [get] returns for another key of the table. *)
Theorem SQLite_other_key_unchanged (n k k' v : string) (d : SQLite) :
  SQL.closed (backend d) = false ->
  (forall t, tables d !! n = Some t ->
             name t = n /\ is_Some (SQL.relations (backend d) !! n)) ->
  k <> k' ->
  fst (Data_get n (VStr k') (after (Data_put n (VStr k) (VStr v)) d)) =
    fst (Data_get n (VStr k') d).
Proof.
  intros Ho Hh Hne.
  destruct (SQLite_assert_exist_cases n d Ho Hh)
    as [[d1 [t [Ha [Ht [Hn [Ho1 Hr1]]]]]]|[En [Ha|Ha]]].
  2: { unfold after. rewrite (Data_put_refused n _ _ d _ _ Ha). cbn [snd].
       rewrite (Data_get_refused n _ d _ _ Ha).
       rewrite (Data_get_refused n _ _ (mkData (tables d) (SQL.set_result [] (backend d)))
                  OperationalError); [reflexivity|].
       rewrite (SQLite_assert_exist_fetched n d [] Ho En). exact Ha. }
  2: { unfold after. rewrite (Data_put_unmodelled n _ _ d _ Ha). cbn [snd].
       rewrite (Data_get_unmodelled n _ d _ Ha).
       rewrite (Data_get_unmodelled n _ _ (mkData (tables d) (SQL.set_result [] (backend d))));
         [reflexivity|].
       rewrite (SQLite_assert_exist_fetched n d [] Ho En). exact Ha. }
  unfold after. rewrite (Data_put_opened n _ _ d d1 Ha) by eauto.
  rewrite (Data_get_opened n _ d d1 Ha) by eauto.
  rewrite (SQLite_put_known n k v d1 t _ Ht Hn Ho1 Hr1).
  rewrite (SQLite_get_known n k' d1 t _ Ht Hn Ho1 Hr1). simpl.
  rewrite (SQLite_get_known n k' _ t (put_rows k v (SQLite_rows n d)));
    [|apply lookup_insert_eq|exact Hn|exact Ho1|apply lookup_insert_eq].
  now rewrite values_of_put_rows_other.
Qed.

Lemma SQLite_other_key_unchanged_witness :
  fst (Data_get "games" (VStr "game2")
         (after (Data_put "games" (VStr "game1") (VStr "")) sqlite_games)) =
    fst (Data_get "games" (VStr "game2") sqlite_games).
Proof.
  apply (SQLite_other_key_unchanged "games" "game1" "game2" "" sqlite_games).
  - reflexivity.
  - intros t Ht. vm_compute in Ht. injection Ht as <-. split; [reflexivity|].
    vm_compute. eauto.
  - discriminate.
Defined.

Lemma execute_SELECT_COUNT (c : SQL.Connection) (n : string) (rows : SQL.relation) :
  SQL.closed c = false ->
  SQL.relations c !! n = Some rows ->
  SQL.execute (SQL.SELECT_COUNT n) c = (Ok tt, SQL.set_result [[VInt (length rows)]] c).
Proof. intros Hopen Hrel. unfold SQL.execute, SQL.run. now rewrite Hopen, Hrel. Qed.

Lemma SQLite_len_known (n : string) (d : SQLite) (t : SQLTable) (rows : SQL.relation) :
  tables d !! n = Some t ->
  name t = n ->
  SQL.closed (backend d) = false ->
  SQL.relations (backend d) !! n = Some rows ->
  fst (on_table n (len SQLTable_len) d) = Ok (length rows).
Proof.
  intros Ht Hn Ho Hr. rewrite (on_table_known n _ d t Ht). cbn [fst].
  unfold len, SQLTable_len, self, engine, bind, gets, ret. simpl.
  rewrite <- Hn in Hr. rewrite (execute_SELECT_COUNT _ (name t) rows Ho Hr). simpl.
  now rewrite (fetchone_cons _ _ _ Ho).
Qed.

(** X16. On the relational backend [put] is an upsert away from the empty
    string: when the first value that the key held, if any, is not empty
    and the value put first is not empty, a second [put] to the key adds
    no row, [len] of the table stays what it was, and [get] returns the
    second value.  The name of the table is an identifier that no stored
    table name clashes with. *)
Theorem SQLite_put_is_upsert_unless_empty (n k v1 v2 : string) (d : SQLite) :
  SQL.closed (backend d) = false ->
  (forall t, tables d !! n = Some t ->
             name t = n /\ is_Some (SQL.relations (backend d) !! n)) ->
  SQL.identifier n = true ->
  SQL.clash n (backend d) = false ->
  head (values_of k (SQLite_rows n d)) <> Some "" ->
  v1 <> "" ->
  let d1 := after (Data_put n (VStr k) (VStr v1)) d in
  let d2 := after (Data_put n (VStr k) (VStr v2)) d1 in
  length (SQLite_rows n d2) = length (SQLite_rows n d1) /\
  fst (on_table n (len SQLTable_len) d2) = fst (on_table n (len SQLTable_len) d1) /\
  fst (on_table n (len SQLTable_len) d2) = Ok (length (SQLite_rows n d1)) /\
  fst (Data_get n (VStr k) d2) = Ok (VStr v2).
Proof.
  intros Ho Hh Hi Hc Hv Hv1. cbv zeta.
  destruct (SQLite_assert_exist_open n d Ho Hh Hi Hc) as [d0 [t [Ha [Ht [Hn [Ho0 Hr0]]]]]].
  assert (E : after (Data_put n (VStr k) (VStr v1)) d =
              after (Data_put n (VStr k) (VStr v1)) d0).
  { unfold after. now rewrite (Data_put_opened n _ _ d d0 Ha) by eauto. }
  rewrite E. clear E.
  set (rows := SQLite_rows n d) in *.
  set (d1 := after (Data_put n (VStr k) (VStr v1)) d0).
  assert (Ht1 : tables d1 !! n = Some t).
  { unfold d1, after. rewrite (SQLite_put_known n k v1 d0 t rows Ht Hn Ho0 Hr0).
    apply lookup_insert_eq. }
  assert (Ho1 : SQL.closed (backend d1) = false).
  { unfold d1, after. now rewrite (SQLite_put_known n k v1 d0 t rows Ht Hn Ho0 Hr0). }
  assert (Hr1 : SQL.relations (backend d1) !! n = Some (put_rows k v1 rows)).
  { unfold d1, after. rewrite (SQLite_put_known n k v1 d0 t rows Ht Hn Ho0 Hr0).
    apply lookup_insert_eq. }
  assert (Hrows1 : SQLite_rows n d1 = put_rows k v1 rows).
  { unfold SQLite_rows. now rewrite Hr1. }
  set (d2 := after (Data_put n (VStr k) (VStr v2)) d1).
  assert (Ht2 : tables d2 !! n = Some t).
  { unfold d2, after. rewrite (SQLite_put_known n k v2 d1 t _ Ht1 Hn Ho1 Hr1).
    apply lookup_insert_eq. }
  assert (Ho2 : SQL.closed (backend d2) = false).
  { unfold d2, after. now rewrite (SQLite_put_known n k v2 d1 t _ Ht1 Hn Ho1 Hr1). }
  assert (Hr2 : SQL.relations (backend d2) !! n =
                Some (put_rows k v2 (put_rows k v1 rows))).
  { unfold d2, after. rewrite (SQLite_put_known n k v2 d1 t _ Ht1 Hn Ho1 Hr1).
    apply lookup_insert_eq. }
  assert (Hrows2 : SQLite_rows n d2 = put_rows k v2 (put_rows k v1 rows)).
  { unfold SQLite_rows. now rewrite Hr2. }
  pose proof (values_of_put_rows k v1 rows Hv) as Hhead1.
  assert (Hlen : length (put_rows k v2 (put_rows k v1 rows)) = length (put_rows k v1 rows)).
  { unfold put_rows at 1. destruct (values_of k (put_rows k v1 rows)) as [|v0 vs];
      [discriminate|].
    simpl in Hhead1. injection Hhead1 as ->.
    destruct (String.eqb v1 "") eqn:E1; [apply String.eqb_eq in E1; contradiction|].
    apply length_map. }
  rewrite (SQLite_len_known n d2 t _ Ht2 Hn Ho2 Hr2).
  rewrite (SQLite_len_known n d1 t _ Ht1 Hn Ho1 Hr1).
  rewrite Hrows1, Hrows2, Hlen.
  repeat split; try reflexivity.
  rewrite (SQLite_get_known n k d2 t _ Ht2 Hn Ho2 Hr2).
  assert (Hhead2 : head (values_of k (put_rows k v2 (put_rows k v1 rows))) = Some v2).
  { apply values_of_put_rows. rewrite Hhead1. congruence. }
  destruct (values_of k (put_rows k v2 (put_rows k v1 rows))); [discriminate|].
  simpl in Hhead2. congruence.
Qed.

Lemma SQLite_put_is_upsert_unless_empty_witness :
  let d1 := after (Data_put "games" (VStr "game1") (VStr "italy")) sqlite_games in
  let d2 := after (Data_put "games" (VStr "game1") (VStr "")) d1 in
  length (SQLite_rows "games" d2) = length (SQLite_rows "games" d1) /\
  fst (on_table "games" (len SQLTable_len) d2) = fst (on_table "games" (len SQLTable_len) d1) /\
  fst (on_table "games" (len SQLTable_len) d2) = Ok (length (SQLite_rows "games" d1)) /\
  fst (Data_get "games" (VStr "game1") d2) = Ok (VStr "").
Proof.
  apply (SQLite_put_is_upsert_unless_empty "games" "game1" "italy" "" sqlite_games).
  - reflexivity.
  - intros t Ht. vm_compute in Ht. injection Ht as <-. split; [reflexivity|].
    vm_compute. eauto.
  - reflexivity.
  - reflexivity.
  - vm_compute. discriminate.
  - discriminate.
Defined.

(** ** The relational backend: [delete] on the table, the shared cursor,
    [verify], index keywords *)






(** X19. On the relational backend [verify] never returns normally: it
    raises [KeyError] for a name that the registry does not hold and
    [AttributeError] for one that it holds, and leaves the facade as it
    was. *)
Theorem SQLite_verify_always_raises (n : string) (d : SQLite) :
  Data_verify n d =
    (Raise (match tables d !! n with None => KeyError | Some _ => AttributeError end), d).
Proof.
  destruct (tables d !! n) as [t|] eqn:E.
  - unfold Data_verify. rewrite (on_table_known n _ d t E).
    change (table_verify (n +:+ ".db")) with (SQLTable_verify (n +:+ ".db")).
    unfold SQLTable_verify, raise. simpl.
    destruct d as [tbs c]. simpl in *. now rewrite insert_id.
  - now apply Data_verify_unknown.
Qed.

Lemma run_param_statement (c : SQL.Connection) (n col val key : string) :
  SQL.closed c = false ->
  SQL.execute (SQL.UPDATE_SET_param n col val key) c =
    (Raise OperationalError, SQL.set_result [] c).
Proof. intros Ho. unfold SQL.execute. now rewrite Ho. Qed.



(** ** Opening a table again *)

(** X21. [open(name)] on a name that the facade already holds does not
    raise and loses nothing: the new table object has no cursor, and [get]
    returns what it returned before, on both backends.  The table was
    opened under a name that the engine takes as it is: [name + '.db'] is
    a file name, and [name] is an identifier, the name under which
    [sqlite_master] lists the relation. *)
Theorem open_again_keeps_data (n k : string) (b : Berkeley) (tb : BSDTable)
    (s : SQLite) (ts : SQLTable) :
  BDB.env_closed (env (backend b)) = false ->
  BDB.file_name (n +:+ ".db") = true ->
  tables b !! n = Some tb ->
  db tb = BDB.mkDB (n +:+ ".db") false ->
  SQL.closed (backend s) = false ->
  SQL.identifier n = true ->
  tables s !! n = Some ts ->
  name ts = n ->
  is_Some (SQL.relations (backend s) !! n) ->
  (fst (Berkeley_open n b) = Ok tt /\
   cursor <$> tables (after (Berkeley_open n) b) !! n = Some None /\
   fst (Data_get n (VStr k) (after (Berkeley_open n) b)) = fst (Data_get n (VStr k) b)) /\
  (fst (SQLite_open n s) = Ok tt /\
   cursor <$> tables (after (SQLite_open n) s) !! n = Some None /\
   fst (Data_get n (VStr k) (after (SQLite_open n) s)) = fst (Data_get n (VStr k) s)).
Proof.
  intros Hbo Hf Htb Hdb Hso _ Hts Hn [rows Hr]. split.
  - unfold after. rewrite (Berkeley_open_ok n b Hbo Hf). cbn [fst snd].
    split; [reflexivity|]. split; [cbn [tables]; now rewrite lookup_insert_eq|].
    rewrite (Berkeley_get_eq n k _ (BSDTable_init n (BDB.mkDB (n +:+ ".db") false)));
      [|apply lookup_insert_eq|reflexivity].
    assert (Hc : BDB.db_closed (db tb) = false) by now rewrite Hdb.
    rewrite (Berkeley_get_eq n k b tb Htb Hc). cbn [backend env db BSDTable_init Table_init].
    now rewrite with_file_tree, Hdb.
  - unfold after. rewrite (SQLite_open_cases n s Hso), Hr. cbn [fst snd].
    split; [reflexivity|]. split; [cbn [tables]; now rewrite lookup_insert_eq|].
    assert (Hw : with_relation n (backend s) = SQL.set_result [] (backend s)).
    { unfold with_relation. now rewrite Hr. }
    rewrite (SQLite_get_known n k _ (SQLTable_init n) rows);
      [|apply lookup_insert_eq|reflexivity|cbn [backend]; now rewrite Hw
       |cbn [backend]; now rewrite Hw].
    now rewrite (SQLite_get_known n k s ts rows Hts Hn Hso Hr).
Qed.

Lemma open_again_keeps_data_witness :
  (fst (Berkeley_open "games" berkeley_games) = Ok tt /\
   cursor <$> tables (after (Berkeley_open "games") berkeley_games) !! "games" = Some None /\
   fst (Data_get "games" (VStr "game1") (after (Berkeley_open "games") berkeley_games)) =
   fst (Data_get "games" (VStr "game1") berkeley_games)) /\
  (fst (SQLite_open "games" sqlite_games) = Ok tt /\
   cursor <$> tables (after (SQLite_open "games") sqlite_games) !! "games" = Some None /\
   fst (Data_get "games" (VStr "game1") (after (SQLite_open "games") sqlite_games)) =
   fst (Data_get "games" (VStr "game1") sqlite_games)).
Proof.
  apply (open_again_keeps_data "games" "game1" berkeley_games
           (BSDTable_init "games" (BDB.mkDB "games.db" false))
           sqlite_games (SQLTable_init "games")); try reflexivity.
  vm_compute. eauto.
Defined.

(** ** Keys and values that are not text, on the relational backend *)

Lemma SQLite_put_coerces (n : string) (key data : value) (d : SQLite) :
  Data_put n key data d = Data_put n (VStr (str key)) (VStr (str data)) d.
Proof. reflexivity. Qed.

Lemma SQLite_get_coerces (n : string) (key : value) (d : SQLite) :
  Data_get n key d = Data_get n (VStr (str key)) d.
Proof. reflexivity. Qed.

(** X22. The relational backend stores the text of keys and values:
    [put] of a key and a value that are each [None], text, bytes or a
    natural number, followed by [get] of the key, returns [str(value)], as
    text, provided the first value that the text of the key held, if any,
    was not the empty string.  The name of the table is an identifier that
    no stored table name clashes with. *)
Theorem SQLite_put_then_get_returns_text (n : string) (key data : value) (d : SQLite) :
  SQL.closed (backend d) = false ->
  (forall t, tables d !! n = Some t ->
             name t = n /\ is_Some (SQL.relations (backend d) !! n)) ->
  SQL.identifier n = true ->
  SQL.clash n (backend d) = false ->
  head (values_of (str key) (SQLite_rows n d)) <> Some "" ->
  fst (Data_put n key data d) = Ok tt /\
  fst (Data_get n key (after (Data_put n key data) d)) = Ok (VStr (str data)).
Proof.
  intros Ho Hh Hi Hc Hv.
  destruct (SQLite_assert_exist_open n d Ho Hh Hi Hc) as [d1 [t [Ha [Ht [Hn [Ho1 Hr1]]]]]].
  rewrite SQLite_get_coerces. unfold after. rewrite SQLite_put_coerces.
  rewrite (Data_put_opened n _ _ d d1 Ha) by eauto.
  rewrite (SQLite_put_known n (str key) (str data) d1 t _ Ht Hn Ho1 Hr1).
  split; [reflexivity|]. simpl.
  rewrite (SQLite_get_known n (str key) _ t (put_rows (str key) (str data) (SQLite_rows n d)));
    [|apply lookup_insert_eq|exact Hn|exact Ho1|apply lookup_insert_eq].
  pose proof (values_of_put_rows (str key) (str data) (SQLite_rows n d) Hv) as Hhead.
  destruct (values_of (str key) (put_rows (str key) (str data) (SQLite_rows n d)));
    [discriminate|].
  simpl in Hhead. congruence.
Qed.

Lemma SQLite_put_then_get_returns_text_witness :
  fst (Data_put "games" (VInt 7) (VInt 42) sqlite_games) = Ok tt /\
  fst (Data_get "games" (VInt 7) (after (Data_put "games" (VInt 7) (VInt 42)) sqlite_games))
    = Ok (VStr "42").
Proof.
  apply (SQLite_put_then_get_returns_text "games" (VInt 7) (VInt 42) sqlite_games).
  - reflexivity.
  - intros t Ht. vm_compute in Ht. injection Ht as <-. split; [reflexivity|].
    vm_compute. eauto.
  - reflexivity.
  - reflexivity.
  - vm_compute. discriminate.
Defined.

(** ** [add_index] never runs to its end *)

Lemma Berkeley_add_index_past_guard (index table : string)
    (index_callback : bytes -> bytes -> bytes) (b : Berkeley) :
  index ∉ dom (tables b) ->
  rebinds_facade index = false ->
  Berkeley_add_index index index_callback table b =
    Some (
      if BDB.env_closed (env (backend b)) then
        (Raise DBError,
         mkData (tables b)
           (mkBerkeley (env (backend b)) (<[index := Index_new]> (attrs (backend b)))))
      else
        match BDB.file_of (env (backend b)) (table +:+ "_idx_" +:+ index +:+ ".db") with
        | inl x =>
            (Raise x,
             mkData (tables b)
               (mkBerkeley (env (backend b)) (<[index := Index_new]> (attrs (backend b)))))
        | inr f =>
            (Raise AttributeError,
             mkData (tables b)
               (mkBerkeley
                  (with_file (table +:+ "_idx_" +:+ index +:+ ".db") (env (backend b)))
                  (<[index := mkIndex (Some (BDB.mkDB f false)) (Some None) None]>
                     (attrs (backend b)))))
        end).
Proof.
  intros Hn Hr. unfold Berkeley_add_index. rewrite decide_False by exact Hn. rewrite Hr.
  f_equal. unfold setattr_index, Berkeley_env, Berkeley_db, bind, modify, raise, ret.
  cbn [tables backend env attrs].
  destruct (BDB.env_closed (env (backend b))) eqn:Ec.
  - unfold BDB.open. now rewrite Ec.
  - unfold with_file, BDB.open. rewrite Ec.
    destruct (BDB.file_of (env (backend b)) (table +:+ "_idx_" +:+ index +:+ ".db"))
      as [x|f]; [reflexivity|].
    cbn [tables backend env attrs fst snd].
    rewrite !lookup_insert_eq. cbn [default index_db index_cursor cursor_value Index_new].
    now rewrite !insert_insert_eq.
Qed.

(** X23. No call of [add_index] returns normally, on either backend, and
    none changes the registry of tables, a table object or a relation:
    [Berkeley.add_index] raises (or, for a name of the facade itself, is
    outside the model), and [SQLTable.add_index] raises. *)
Theorem add_index_never_returns (index table : string)
    (index_callback : bytes -> bytes -> bytes) (b : Berkeley)
    (index' : string) (t : SQLTable) (c : SQL.Connection) :
  match Berkeley_add_index index index_callback table b with
  | Some (r, b') => (exists e, r = Raise e) /\ tables b' = tables b
  | None => rebinds_facade index = true
  end /\
  (exists e, fst (SQLTable_add_index index' (t, c)) = Raise e) /\
  fst (snd (SQLTable_add_index index' (t, c))) = t /\
  SQL.relations (snd (snd (SQLTable_add_index index' (t, c)))) = SQL.relations c.
Proof.
  split.
  - destruct (decide (index ∈ dom (tables b))) as [Hin|Hin].
    + unfold Berkeley_add_index. rewrite decide_True by exact Hin. eauto.
    + destruct (rebinds_facade index) eqn:Hr.
      * unfold Berkeley_add_index. rewrite decide_False by exact Hin. now rewrite Hr.
      * rewrite (Berkeley_add_index_past_guard index table index_callback b Hin Hr).
        destruct (BDB.env_closed (env (backend b))); [eauto|].
        destruct (BDB.file_of (env (backend b)) (table +:+ "_idx_" +:+ index +:+ ".db"));
          eauto.
  - unfold SQLTable_add_index, self, engine, bind, gets, raise, SQL.execute, SQL.commit.
    simpl. destruct (decide (index' ∈ dom (indexes t))); simpl; [eauto|].
    destruct (SQL.closed c); simpl; eauto.
Qed.

(** X24. On the ordered backend [add_index] with a fresh name attaches
    the index to the facade, with a handle on its own file and no cursor,
    and then raises [AttributeError]; [table] with that name as selector
    does not find it and raises [AttributeError] too.  The name of the
    index is none of the parameters of [table], the file of the index has
    a file name and is not in the environment yet, and the table is
    registered or can be opened. *)
Theorem Berkeley_add_index_then_table (index table : string)
    (index_callback : bytes -> bytes -> bytes) (v : value) (b : Berkeley) :
  BDB.env_closed (env (backend b)) = false ->
  index ∉ dom (tables b) ->
  rebinds_facade index = false ->
  index ∉ table_parameters ->
  BDB.file_name (table +:+ "_idx_" +:+ index +:+ ".db") = true ->
  BDB.files (env (backend b)) !! (table +:+ "_idx_" +:+ index +:+ ".db") = None ->
  (tables b !! table = None -> BDB.file_name (table +:+ ".db") = true) ->
  exists b',
    Berkeley_add_index index index_callback table b = Some (Raise AttributeError, b') /\
    attrs (backend b') !! index =
      Some (mkIndex (Some (BDB.mkDB (table +:+ "_idx_" +:+ index +:+ ".db") false))
                    (Some None) None) /\
    fst (Data_table table [(index, v)] b') = Raise AttributeError.
Proof.
  intros Ho Hin Hr Hp Hfi _ Hft.
  rewrite (Berkeley_add_index_past_guard index table index_callback b Hin Hr), Ho.
  unfold BDB.file_of. rewrite Hfi.
  eexists. split; [reflexivity|]. split; [cbn [backend attrs]; apply lookup_insert_eq|].
  assert (Hk : index <> "__class__").
  { intros ->. unfold rebinds_facade in Hr. apply orb_false_elim in Hr.
    destruct Hr as [_ Hpre]. discriminate Hpre. }
  match goal with |- fst (Data_table _ _ ?b1) = _ =>
    assert (Ho1 : BDB.env_closed (env (backend b1)) = false)
      by (cbn [backend env]; now rewrite with_file_env_closed);
    destruct (Berkeley_assert_exist_ok table b1 Ho1 Hft) as [b2 [tb [Hb2 Htb]]];
    apply (Data_table_selector table index v b1 b2 tb Hp Hb2 Htb)
  end.
  intros s0. now apply BSDTable_no_index_attribute.
Qed.

Lemma Berkeley_add_index_then_table_witness :
  exists b',
    Berkeley_add_index "date" (fun _ _ => []) "games" berkeley_games =
      Some (Raise AttributeError, b') /\
    attrs (backend b') !! "date" =
      Some (mkIndex (Some (BDB.mkDB "games_idx_date.db" false)) (Some None) None) /\
    fst (Data_table "games" [("date", VStr "2020-10-26")] b') = Raise AttributeError.
Proof.
  apply (Berkeley_add_index_then_table "date" "games" (fun _ _ => []) (VStr "2020-10-26")
           berkeley_games).
  - reflexivity.
  - rewrite elem_of_dom. vm_compute. intros [x Hx]. discriminate.
  - reflexivity.
  - apply (bool_decide_unpack _). vm_compute. reflexivity.
  - reflexivity.
  - reflexivity.
  - intros _. reflexivity.
Defined.

(** ** Selectors that Python reads itself *)

(** X28. [table(name, ...)] with a selector named [self] or [name] raises
    [TypeError] (the parameter of the method got two values) before the
    body runs: nothing is opened, registered or looked up, whatever the
    table name and the other selectors, on both backends. *)
Theorem table_selector_named_as_parameter (name k : string) (v : value)
    (before rest : list (string * value)) (b : Berkeley) (s : SQLite) :
  k ∈ table_parameters ->
  Data_table name (before ++ (k, v) :: rest) b = (Raise TypeError, b) /\
  Data_table name (before ++ (k, v) :: rest) s = (Raise TypeError, s).
Proof. intros Hk. split; now apply Data_table_parameter. Qed.

Lemma table_selector_named_as_parameter_witness :
  Data_table "comps" [("date", VStr "2020-10-26"); ("name", VStr "games")] berkeley_games =
    (Raise TypeError, berkeley_games) /\
  Data_table "comps" [("date", VStr "2020-10-26"); ("name", VStr "games")] sqlite_games =
    (Raise TypeError, sqlite_games).
Proof.
  apply (table_selector_named_as_parameter "comps" "name" (VStr "games")
           [("date", VStr "2020-10-26")] [] berkeley_games sqlite_games).
  apply (bool_decide_unpack _). vm_compute. reflexivity.
Defined.

(** X29. [table(name, __class__=value)] raises nothing: [getattr] finds
    the class of the table object, [setattr] gives the class the attribute
    [cursor_value], and the call returns the class, neither a table nor an
    index.  The table is registered or can be opened. *)
Theorem table_selector_class (name : string) (v : value) (b : Berkeley) (s : SQLite) :
  BDB.env_closed (env (backend b)) = false ->
  SQL.closed (backend s) = false ->
  (tables b !! name = None -> BDB.file_name (name +:+ ".db") = true) ->
  (tables s !! name = None ->
   SQL.identifier name = true /\ SQL.clash name (backend s) = false) ->
  fst (Data_table name [("__class__", v)] b) = Ok HClass /\
  fst (Data_table name [("__class__", v)] s) = Ok HClass.
Proof.
  intros Hbo Hso Hbn Hsn.
  destruct (Berkeley_assert_exist_ok name b Hbo Hbn) as [b1 [tb [Hb1 Htb]]].
  destruct (SQLite_assert_exist_ok name s Hso Hsn) as [s1 [ts [Hs1 Hts]]].
  split.
  - now apply (Data_table_class name v b b1 tb Hb1 Htb).
  - now apply (Data_table_class name v s s1 ts Hs1 Hts).
Qed.

Lemma table_selector_class_witness :
  fst (Data_table "games" [("__class__", VStr "2020-10-26")] berkeley_games) = Ok HClass /\
  fst (Data_table "comps" [("__class__", VStr "2020-10-26")] sqlite_games) = Ok HClass.
Proof.
  assert (Hgames : tables sqlite_games !! "games" = None ->
                   SQL.identifier "games" = true /\
                   SQL.clash "games" (backend sqlite_games) = false)
    by (intros _; split; reflexivity).
  assert (Hcomps : tables sqlite_games !! "comps" = None ->
                   SQL.identifier "comps" = true /\
                   SQL.clash "comps" (backend sqlite_games) = false)
    by (intros _; split; reflexivity).
  split.
  - apply (table_selector_class "games" (VStr "2020-10-26") berkeley_games sqlite_games
             eq_refl eq_refl (fun _ => eq_refl) Hgames).
  - apply (table_selector_class "comps" (VStr "2020-10-26") berkeley_games sqlite_games
             eq_refl eq_refl (fun _ => eq_refl) Hcomps).
Defined.

(** ** One table and another *)

Lemma string_length_append (a s : string) :
  String.length (a +:+ s) = String.length a + String.length s.
Proof. induction a as [|c a IH]; [reflexivity|]. simpl. now rewrite IH. Qed.

Lemma string_append_cancel_r (a b s : string) : a +:+ s = b +:+ s -> a = b.
Proof.
  revert b. induction a as [|c a IH]; intros [|c' b] H; simpl in H.
  - reflexivity.
  - apply (f_equal String.length) in H. cbn [String.append] in H.
    rewrite !string_length_append in H. simpl in H. lia.
  - apply (f_equal String.length) in H. cbn [String.append] in H.
    rewrite !string_length_append in H. simpl in H. lia.
  - injection H as -> H. f_equal. now apply IH.
Qed.

(** X25. The tables of a facade are independent: [put] to one table
    changes nothing that [get] returns on another one, on both backends,
    for two different names that the engines take as they are
    ([name + '.db'] a file name, [name] an identifier), so that they lead
    to two files and two relations. *)
Theorem other_table_unchanged (n n' k k' v : string)
    (b : Berkeley) (tb tb' : BSDTable) (s : SQLite) (ts ts' : SQLTable) :
  n <> n' ->
  BDB.file_name (n +:+ ".db") = true -> BDB.file_name (n' +:+ ".db") = true ->
  SQL.identifier n = true -> SQL.identifier n' = true ->
  tables b !! n = Some tb -> db tb = BDB.mkDB (n +:+ ".db") false ->
  tables b !! n' = Some tb' -> db tb' = BDB.mkDB (n' +:+ ".db") false ->
  SQL.closed (backend s) = false ->
  tables s !! n = Some ts -> name ts = n -> is_Some (SQL.relations (backend s) !! n) ->
  tables s !! n' = Some ts' -> name ts' = n' -> is_Some (SQL.relations (backend s) !! n') ->
  fst (Data_get n' (VStr k') (after (Data_put n (VStr k) (VStr v)) b)) =
    fst (Data_get n' (VStr k') b) /\
  fst (Data_get n' (VStr k') (after (Data_put n (VStr k) (VStr v)) s)) =
    fst (Data_get n' (VStr k') s).
Proof.
  intros Hne _ _ _ _ Htb Hdb Htb' Hdb' Hso Hts Hn [rows Hr] Hts' Hn' [rows' Hr']. split.
  - assert (Hc : BDB.db_closed (db tb) = false) by now rewrite Hdb.
    assert (Hc' : BDB.db_closed (db tb') = false) by now rewrite Hdb'.
    unfold after. rewrite (Berkeley_put_known n k v b tb Htb Hc). cbn [snd].
    rewrite (Berkeley_get_eq n' k' _ tb');
      [|cbn [tables]; now rewrite lookup_insert_ne|exact Hc'].
    rewrite (Berkeley_get_eq n' k' b tb' Htb' Hc').
    cbn [backend env]. unfold BDB.tree_of at 1, BDB.set_tree. cbn [BDB.files].
    rewrite lookup_insert_ne; [reflexivity|].
    rewrite Hdb, Hdb'. simpl. intros E. apply Hne.
    now apply (string_append_cancel_r n n' ".db").
  - unfold after. rewrite (SQLite_put_known n k v s ts rows Hts Hn Hso Hr). cbn [snd].
    rewrite (SQLite_get_known n' k' _ ts' rows');
      [|cbn [tables]; now rewrite lookup_insert_ne|exact Hn'|exact Hso
       |cbn [backend SQL.relations]; now rewrite lookup_insert_ne].
    now rewrite (SQLite_get_known n' k' s ts' rows' Hts' Hn' Hso Hr').
Qed.

Lemma other_table_unchanged_witness :
  fst (Data_get "comps" (VStr "cup")
         (after (Data_put "games" (VStr "cup") (VStr "italy")) berkeley_two_tables)) =
    fst (Data_get "comps" (VStr "cup") berkeley_two_tables) /\
  fst (Data_get "comps" (VStr "cup")
         (after (Data_put "games" (VStr "cup") (VStr "italy")) sqlite_two_tables)) =
    fst (Data_get "comps" (VStr "cup") sqlite_two_tables).
Proof.
  apply (other_table_unchanged "games" "comps" "cup" "cup" "italy"
           berkeley_two_tables
           (BSDTable_init "games" (BDB.mkDB "games.db" false))
           (BSDTable_init "comps" (BDB.mkDB "comps.db" false))
           sqlite_two_tables (SQLTable_init "games") (SQLTable_init "comps"));
    try reflexivity; try discriminate; vm_compute; eauto.
Defined.

(** ** After the scope of the relational backend *)

Lemma SQLite_assert_exist_closed (n : string) (d : SQLite) :
  SQL.closed (backend d) = true ->
  tables d !! n = None ->
  assert_exist n d = (Raise ProgrammingError, d).
Proof.
  intros Hc Hn. rewrite (assert_exist_unknown n d Hn).
  change (backend_open n d) with (SQLite_open n d).
  unfold SQLite_open, SQLite_db, bind, SQL.execute. rewrite Hc. now destruct d.
Qed.

Lemma SQLite_on_table_closed {A} (n : string) (method : M (SQLTable * SQL.Connection) A)
    (d : SQLite) (t : SQLTable) :
  tables d !! n = Some t ->
  method (t, backend d) = (Raise ProgrammingError, (t, backend d)) ->
  on_table n method d = (Raise ProgrammingError, d).
Proof.
  intros Ht Hm. rewrite (on_table_known n method d t Ht), Hm. simpl.
  destruct d as [tbs c]. simpl in *. now rewrite insert_id.
Qed.

(** X26. Once the connection is closed, as [__exit__] leaves it, [put],
    [get] and [delete] on any table name raise [ProgrammingError] and
    change nothing. *)
Theorem SQLite_closed_facade_raises (n : string) (key data : value) (d : SQLite) :
  SQL.closed (backend d) = true ->
  Data_put n key data d = (Raise ProgrammingError, d) /\
  Data_get n key d = (Raise ProgrammingError, d) /\
  Data_delete n key d = (Raise ProgrammingError, d).
Proof.
  intros Hc. destruct (tables d !! n) as [t|] eqn:E.
  - assert (Ha : assert_exist n d = (Ok tt, d)) by (apply assert_exist_known; eauto).
    assert (Hget : SQLTable_get key (t, backend d) =
                   (Raise ProgrammingError, (t, backend d))).
    { unfold SQLTable_get, self, engine, bind, gets, SQL.execute. cbn [fst snd].
      now rewrite Hc. }
    assert (Hput : SQLTable_put key data [] (t, backend d) =
                   (Raise ProgrammingError, (t, backend d))).
    { unfold SQLTable_put. unfold bind at 1.
      change (SQLTable_get (VStr (str key))) with (SQLTable_get key). now rewrite Hget. }
    assert (Hdel : SQLTable_delete (VBytes (encode (str key))) (t, backend d) =
                   (Raise ProgrammingError, (t, backend d))).
    { unfold SQLTable_delete, self, engine, bind, gets, SQL.execute. cbn [fst snd].
      now rewrite Hc. }
    unfold Data_put, Data_get, Data_delete, bind. rewrite Ha.
    change (table_put key data) with (SQLTable_put key data []).
    change (table_get key) with (SQLTable_get key).
    change (table_delete (VBytes (encode (str key))))
      with (SQLTable_delete (VBytes (encode (str key)))).
    rewrite (SQLite_on_table_closed n _ d t E Hput).
    rewrite (SQLite_on_table_closed n _ d t E Hget).
    now rewrite (SQLite_on_table_closed n _ d t E Hdel).
  - unfold Data_put, Data_get, Data_delete, bind.
    now rewrite (SQLite_assert_exist_closed n d Hc E).
Qed.

Lemma SQLite_closed_facade_raises_witness :
  let d := snd (with_ (ret tt) SQLite_exit sqlite_games) in
  Data_put "games" (VStr "game1") (VStr "italy") d = (Raise ProgrammingError, d) /\
  Data_get "games" (VStr "game1") d = (Raise ProgrammingError, d) /\
  Data_delete "games" (VStr "game1") d = (Raise ProgrammingError, d).
Proof.
  apply (SQLite_closed_facade_raises "games" (VStr "game1") (VStr "italy")
           (snd (with_ (ret tt) SQLite_exit sqlite_games))).
  reflexivity.
Defined.

(** ** Table names that SQLite refuses *)

Lemma word_start_byte (a : Ascii.ascii) : SQL.word_start a = true -> SQL.word_byte a = true.
Proof.
  unfold SQL.word_start, SQL.word_byte. cbv zeta.
  destruct ((97 <=? Ascii.N_of_ascii (SQL.lower a))%N && (Ascii.N_of_ascii (SQL.lower a) <=? 122)%N);
    [reflexivity|].
  destruct (Ascii.N_of_ascii (SQL.lower a) =? 95)%N; [|discriminate].
  intros _. now rewrite orb_true_r.
Qed.

Lemma split_space_not_words (name : string) (p : string * string) :
  SQL.split_space name = Some p ->
  forallb SQL.word_byte (String.list_ascii_of_string name) = false.
Proof.
  revert p. induction name as [|a rest IH]; intros p; [discriminate|].
  cbn [SQL.split_space String.list_ascii_of_string forallb].
  destruct (Ascii.eqb a (Ascii.ascii_of_N 32)) eqn:E.
  - apply Ascii.eqb_eq in E. subst a. reflexivity.
  - destruct (SQL.split_space rest) as [[w1 w2]|]; [|discriminate].
    intros _. rewrite (IH (w1, w2) eq_refl). apply andb_false_r.
Qed.

Lemma two_words_not_identifier (name : string) :
  SQL.two_words name = true -> SQL.identifier name = false.
Proof.
  unfold SQL.two_words. destruct (SQL.split_space name) as [p|] eqn:E; [|discriminate].
  intros _. apply split_space_not_words in E. unfold SQL.identifier.
  destruct name as [|a rest]; [reflexivity|].
  cbn [String.list_ascii_of_string forallb] in E.
  destruct (SQL.word_start a) eqn:Ea; [|reflexivity].
  rewrite (word_start_byte a Ea) in E. cbn [andb] in E. now rewrite E.
Qed.

(** X30. On the relational backend [put], [get] and [delete] on a table
    that is unknown to the facade and to the database, under a name that
    SQLite refuses in the CREATE TABLE (two identifiers with a space
    between them, or an identifier that is the name of a stored table but
    for the case of its letters), raise [OperationalError]: nothing is
    registered, no relation is created or changed, and the cursor has
    nothing to fetch. *)
Theorem SQLite_refused_name_registers_nothing (n : string) (key data : value) (d : SQLite) :
  SQL.closed (backend d) = false ->
  tables d !! n = None ->
  SQL.relations (backend d) !! n = None ->
  SQL.two_words n = true \/ (SQL.identifier n = true /\ SQL.clash n (backend d) = true) ->
  let d' := mkData (tables d) (SQL.set_result [] (backend d)) in
  Data_put n key data d = (Raise OperationalError, d') /\
  Data_get n key d = (Raise OperationalError, d') /\
  Data_delete n key d = (Raise OperationalError, d').
Proof.
  intros Ho Hn Hr Hname d'.
  assert (Ha : assert_exist n d = (Raise OperationalError, d')).
  { rewrite (assert_exist_unknown n d Hn).
    change (backend_open n d) with (SQLite_open n d).
    rewrite (SQLite_open_cases n d Ho), Hr.
    destruct Hname as [Hw|[Hi Hc]].
    - now rewrite (two_words_not_identifier n Hw), Hw.
    - now rewrite Hi, Hc. }
  split; [|split].
  - exact (Data_put_refused n key data d d' OperationalError Ha).
  - exact (Data_get_refused n key d d' OperationalError Ha).
  - exact (Data_delete_refused n key d d' OperationalError Ha).
Qed.

Lemma SQLite_refused_name_registers_nothing_witness :
  let d' := mkData (tables sqlite_games) (SQL.set_result [] (backend sqlite_games)) in
  (Data_put "my games" (VStr "game1") (VStr "italy") sqlite_games =
     (Raise OperationalError, d') /\
   Data_get "my games" (VStr "game1") sqlite_games = (Raise OperationalError, d') /\
   Data_delete "my games" (VStr "game1") sqlite_games = (Raise OperationalError, d')) /\
  (Data_put "Games" (VStr "game1") (VStr "italy") sqlite_games =
     (Raise OperationalError, d') /\
   Data_get "Games" (VStr "game1") sqlite_games = (Raise OperationalError, d') /\
   Data_delete "Games" (VStr "game1") sqlite_games = (Raise OperationalError, d')).
Proof.
  cbv zeta. split.
  - apply (SQLite_refused_name_registers_nothing "my games" (VStr "game1") (VStr "italy")
             sqlite_games); try reflexivity.
    left. reflexivity.
  - apply (SQLite_refused_name_registers_nothing "Games" (VStr "game1") (VStr "italy")
             sqlite_games); try reflexivity.
    right. split; reflexivity.
Defined.
